(** * fb-link-generator: a shallow embedding of [app.py]

    The development follows the Flask application of the repository:
    the cloaking resolver ([redirect_handler], [handle_not_found]), the
    card normalisation ([_save_uploaded_image_for_image_host]), the grid
    composer ([_create_grid_image]) and the ephemeral image registry
    ([_cleanup_expired_images], [api_upload], [api_create_grid],
    [api_delete_image]), with the URL map that stands in front of them
    ([route], [visit]).

    Python values are modelled as the code has them: a [str] is a sequence
    of code points, the two SQLite tables are finite maps keyed by their
    primary key, the upload directory is a finite map from file names to
    contents, Python floats are IEEE binary64 numbers (Stdlib's
    [SpecFloat]) and a raised exception is an explicit error result. *)

From Stdlib Require Import ZArith List Bool String Ascii Lia SpecFloat.
From stdpp Require Import base option list gmap.

Local Open Scope Z_scope.

(** ** Python strings *)

(** A Python [str], as a sequence of Unicode code points. *)
Abbreviation pystr := (list N).

(** A literal of the source. *)
Definition py (s : string) : pystr := N_of_ascii <$> list_ascii_of_string s.

(** [str.lower] on one code point.  It is exact on the code points below
    256, which is the alphabet of a header value; the other code points
    are kept, none of them lowers to a character of the ASCII patterns
    that the handlers search for. *)
Definition lower_cp (c : N) : N :=
  if ((65 <=? c) && (c <=? 90))%N then (c + 32)%N
  else if ((192 <=? c) && (c <=? 222) && negb (c =? 215))%N then (c + 32)%N
  else c.

Definition py_lower (s : pystr) : pystr := lower_cp <$> s.

(** [s.startswith(p)] *)
Fixpoint startswith (p s : pystr) : bool :=
  match p, s with
  | [], _ => true
  | _ :: _, [] => false
  | a :: p', b :: s' => (a =? b)%N && startswith p' s'
  end.

(** [sub in s] *)
Fixpoint contains (sub s : pystr) : bool :=
  startswith sub s ||
  match s with
  | [] => false
  | _ :: s' => contains sub s'
  end.

(** [s.lstrip(c)] for a one-character argument. *)
Fixpoint lstrip (c : N) (s : pystr) : pystr :=
  match s with
  | [] => []
  | a :: s' => if (a =? c)%N then lstrip c s' else s
  end.

(** [s.rstrip(c)] for a one-character argument. *)
Definition rstrip (c : N) (s : pystr) : pystr := rev (lstrip c (rev s)).

(** Truthiness of an optional string: [None] and [''] are falsy. *)
Definition truthy (o : option pystr) : bool :=
  match o with
  | Some (_ :: _) => true
  | _ => false
  end.

(** [o or d] *)
Definition or_else (o : option pystr) (d : pystr) : pystr :=
  match o with
  | Some (c :: s) => c :: s
  | _ => d
  end.

(** [o if o else None] *)
Definition or_none (o : option pystr) : option pystr :=
  if truthy o then o else None.

(** ** Responses *)

Inductive pyval :=
| VNone
| VStr (s : pystr)
| VInt (z : Z)
| VBool (b : bool).

Definition vopt (o : option pystr) : pyval :=
  match o with
  | Some s => VStr s
  | None => VNone
  end.

Inductive body :=
| Text (s : pystr)
| Template (name : pystr) (context : list (pystr * pyval))
| Json (fields : list (pystr * pyval))
| RedirectPage.

(** The value of a [Location] header as it goes out: [Uri s] is the text
    [s] itself, [IriToUri s] the text that werkzeug's conversion of [s] to
    a URI gives, which percent-encodes what a URI cannot hold. *)
Inductive uri :=
| Uri (s : pystr)
| IriToUri (s : pystr).

Record response := Response {
  status : Z;
  location : option uri;
  content : body
}.

(** A view returning a string or a dict: status 200. *)
Definition ok (b : body) : response := Response 200 None b.

(** A view returning [(body, code)]. *)
Definition with_status (b : body) (code : Z) : response := Response code None b.

(** Text that goes out as it is: printable ASCII without blanks. *)
Definition uri_plain (s : pystr) : bool :=
  match s with
  | [] => false
  | _ => forallb (λ c, (33 <=? c) && (c <=? 126))%N s
  end.

Definition wire_uri (target : pystr) : uri :=
  if uri_plain target then Uri target else IriToUri target.

(** A header takes no value with CR or LF: werkzeug raises a [ValueError]
    when one is set. *)
Definition header_safe (value : pystr) : bool :=
  forallb (λ c, negb ((c =? 13) || (c =? 10))%N) value.

(** The response of [redirect(target, code=code)] for a target that the
    [Location] header takes; a caller with a target that is not a
    constant tests [header_safe] before. *)
Definition redirect (target : pystr) (code : Z) : response :=
  Response code (Some (wire_uri target)) RedirectPage.

Definition render_template (name : pystr) (context : list (pystr * pyval)) : response :=
  ok (Template name context).

Definition is_redirection (r : response) : bool :=
  (300 <=? status r) && (status r <=? 399).

(** ** Requests *)

(** The delete token of a JSON body can be any JSON value; only a string
    can compare equal to the stored token. *)
Inductive jtoken :=
| JString (s : pystr)
| JOther (is_truthy : bool).

Record request := Request {
  req_scheme : pystr;
  req_host : pystr;
  req_path : pystr;
  req_base_url : pystr;
  req_user_agent : option pystr;
  (* request.form.get('delete_token') *)
  form_delete_token : option pystr;
  req_is_json : bool;
  (* (request.get_json(silent=True) or {}).get('delete_token') *)
  json_delete_token : option jtoken;
  (* request.args, the parameters of the query string *)
  req_args : list (pystr * pystr)
}.

(** [request.args.get(key, default)] *)
Definition args_get (req : request) (key default : pystr) : pystr :=
  from_option snd default (List.find (λ kv, bool_decide (kv.1 = key)) (req_args req)).

(** [request.host_url]: scheme, host and the root slash. *)
Definition host_url (req : request) : pystr :=
  req_scheme req ++ py "://" ++ req_host req ++ py "/".

(** ** The link table *)

(** One row of [links], in the column order of [SELECT *]; the text
    columns other than the two that [create] requires can hold NULL. *)
Record LinkRecord := LinkRow {
  link_slug : pystr;          (* link[0] *)
  dest_url : pystr;           (* link[1] *)
  img_url : option pystr;     (* link[2] *)
  title : pystr;              (* link[3] *)
  description : option pystr; (* link[4] *)
  card_size : option pystr;   (* link[5] *)
  site_name : option pystr;   (* link[6] *)
  button_text : option pystr; (* link[7] *)
  og_url : option pystr       (* link[8] *)
}.

(** ** The cloaking resolver *)

Definition crawler_signatures : list pystr :=
  [ py "facebookexternalhit"; py "facebot"; py "meta-externalagent";
    py "meta-externalfetcher"; py "twitterbot"; py "linkedinbot";
    py "slackbot"; py "whatsapp"; py "telegrambot" ].

(** [any(bot in user_agent for bot in [...])], on the lowered header. *)
Definition is_bot (user_agent : pystr) : bool :=
  existsb (fun bot => contains bot user_agent) crawler_signatures.

(** The image URL that the handler hands to the template. *)
Definition absolute_img_url (req : request) (stored : option pystr) : pystr :=
  let img_url := or_else stored [] in
  if truthy (Some img_url)
     && negb (startswith (py "http://") img_url || startswith (py "https://") img_url)
  then
    if startswith (py "/") img_url
    then req_scheme req ++ py "://" ++ req_host req ++ img_url
    else rstrip 47 (host_url req) ++ py "/" ++ lstrip 47 img_url
  else img_url.

Definition meta_context (req : request) (link : LinkRecord) : list (pystr * pyval) :=
  let display_url := or_else (og_url link) (req_base_url req) in
  [ (py "title", VStr (title link));
    (py "description", VStr (or_else (description link) []));
    (py "img", VStr (absolute_img_url req (img_url link)));
    (py "url", VStr display_url);
    (py "dest_url", VStr (dest_url link));
    (py "site_name", vopt (or_none (site_name link)));
    (py "card_size", VStr (or_else (card_size link) (py "large")));
    (py "button_text", vopt (or_none (button_text link))) ].

(** What a view function hands back to Flask: a response value, a
    raised HTTP error, or another exception that escapes the view. *)
Inductive outcome :=
| Returned (r : response)
| Aborted (code : Z)
| Raised.

Definition redirect_handler (links : gmap pystr LinkRecord)
    (slug : pystr) (req : request) : outcome :=
  match links !! slug with
  | Some link =>
      let user_agent := py_lower (default [] (req_user_agent req)) in
      if is_bot user_agent
      then Returned (render_template (py "meta.html") (meta_context req link))
      else if header_safe (dest_url link)
      then Returned (redirect (dest_url link) 302)
      else Raised
  | None => Returned (with_status (Text (py "Link not found")) 404)
  end.

(** *** Routing *)

(** The views that a [GET] of a path of at most one segment reaches. *)
Inductive endpoint :=
| Index
| GeneratorPage
| ComposePage
| UploadPage
| RedirectHandler.

(** werkzeug tries the static rules before [/<slug>], whatever the order
    of their definition; the rule [/create] takes [POST] alone, so that a
    [GET] of it goes on to [/<slug>]. *)
Definition route (segment : pystr) : endpoint :=
  if bool_decide (segment = []) then Index
  else if bool_decide (segment = py "generator") then GeneratorPage
  else if bool_decide (segment = py "compose") then ComposePage
  else if bool_decide (segment = py "upload") then UploadPage
  else RedirectHandler.

Definition generator_page : response := render_template (py "index.html") [].

Definition compose_page (req : request) : response :=
  render_template (py "compose.html")
    [ (py "img_url", VStr (args_get req (py "img_url") []));
      (py "title", VStr (args_get req (py "title") []));
      (py "description", VStr (args_get req (py "description") []));
      (py "dest_url", VStr (args_get req (py "dest_url") []));
      (py "card_size", VStr (args_get req (py "card_size") (py "large")));
      (py "site_name", VStr (args_get req (py "site_name") []));
      (py "button_text", VStr (args_get req (py "button_text") []));
      (py "og_url", VStr (args_get req (py "og_url") [])) ].

(** ** The 404 error handler *)

(** The test [U+0E00 <= ch <= U+0E7F] of the handler. *)
Definition is_thai (ch : N) : bool := ((3584 <=? ch) && (ch <=? 3711))%N.

Section Framework.

(** Library functions that the handlers call; [None] stands for a raised
    exception. *)
Variable unquote : pystr -> option pystr.      (* urllib.parse.unquote *)

Definition handle_not_found (req : request) : response :=
  let path := req_path req in
  let decoded := default path (unquote path) in
  let has_thai := existsb is_thai decoded in
  if has_thai || contains (py "%e0%b8") (py_lower path)
  then redirect (py "/upload") 302
  else with_status (Text (py "Not found")) 404.

(** Flask sends the value that a view returns as it is, whatever its
    status; the function registered with [errorhandler(404)] runs only
    when a [NotFound] is raised (by [abort], or by the router when no rule
    matches the path); any other exception that escapes a view is
    answered 500. *)
Definition finalize (req : request) (o : outcome) : response :=
  match o with
  | Returned r => r
  | Aborted code =>
      if code =? 404 then handle_not_found req
      else with_status (Text (py "error")) code
  | Raised => with_status (Text (py "Internal Server Error")) 500
  end.

(** [GET /<slug>]: the answer to a request for a path of the one segment
    [slug].  (The view [upload_page] also sweeps the image registry, which
    this function, on the link table alone, leaves out.) *)
Definition visit (links : gmap pystr LinkRecord) (slug : pystr) (req : request) : response :=
  match route slug with
  | Index => redirect (py "/upload") 302
  | GeneratorPage => generator_page
  | ComposePage => compose_page req
  | UploadPage => render_template (py "upload.html") []
  | RedirectHandler => finalize req (redirect_handler links slug req)
  end.

End Framework.

(** ** Python floats *)

Module Float.

Definition prec : Z := 53.
Definition emax : Z := 1024.

(** [float(z)] for an [int]: correctly rounded, [OverflowError] when the
    result is out of range. *)
Definition of_int (z : Z) : option spec_float :=
  match binary_normalize prec emax z 0 false with
  | S754_infinity _ => None
  | S754_nan => None
  | f => Some f
  end.

Definition mul (x y : spec_float) : spec_float := SFmul prec emax x y.
Definition sub (x y : spec_float) : spec_float := SFsub prec emax x y.

(** [x / y] on floats: [ZeroDivisionError] on a zero divisor. *)
Definition div (x y : spec_float) : option spec_float :=
  match y with
  | S754_zero _ => None
  | _ => Some (SFdiv prec emax x y)
  end.

(** [a / b] on two [int]s, exact for operands below [2^53] in absolute
    value, which every image dimension is. *)
Definition truediv (a b : Z) : option spec_float :=
  x ← of_int a; y ← of_int b; div x y.

(** [int(x)]: truncation towards zero; raises on infinities and NaN. *)
Definition to_int (x : spec_float) : option Z :=
  match x with
  | S754_zero _ => Some 0
  | S754_finite s m e => Some (cond_Zopp s (Z.shiftl (Z.pos m) e))
  | _ => None
  end.

Definition leb (x y : spec_float) : bool := SFleb x y.

(** The literals of the source. *)
Definition one : spec_float := default (S754_zero false) (of_int 1).
Definition two : spec_float := default (S754_zero false) (of_int 2).
Definition lit_1_91 : spec_float :=
  default (S754_zero false) (truediv 191 100).

End Float.

(** ** Images *)

(** The content of a file. *)
Abbreviation bytes := (list N).

Inductive mode := RGB | RGBA | OtherMode.

Inductive font :=
| TrueType (path : pystr) (font_size : Z)
| DefaultFont.

(** A Pillow image, as the term of the calls that built it. *)
Inductive image :=
| Decoded (data : bytes) (w h : Z) (m : mode)          (* Image.open *)
| Converted (i : image)                                (* img.convert('RGB') *)
| Flattened (i : image)                                (* RGBA pasted on white *)
| Resize (i : image) (w h : Z)                         (* img.resize((w, h)) *)
| Crop (i : image) (x0 y0 x1 y1 : Z)                   (* img.crop(box) *)
| New (w h : Z) (color : Z * Z * Z)                    (* Image.new('RGB', ..) *)
| Paste (canvas pasted : image) (x y : Z)              (* canvas.paste(i, (x, y)) *)
| Rectangle (canvas : image) (x0 y0 x1 y1 : Z) (fill : Z * Z * Z * Z)
| DrawText (canvas : image) (x y : Z) (text : pystr) (fill : Z * Z * Z) (f : font).

(** [img.size] *)
Fixpoint size (i : image) : Z * Z :=
  match i with
  | Decoded _ w h _ => (w, h)
  | Converted i => size i
  | Flattened i => size i
  | Resize _ w h => (w, h)
  | Crop _ x0 y0 x1 y1 => (x1 - x0, y1 - y0)
  | New w h _ => (w, h)
  | Paste canvas _ _ _ => size canvas
  | Rectangle canvas _ _ _ _ _ => size canvas
  | DrawText canvas _ _ _ _ _ => size canvas
  end.

(** [img.mode] *)
Fixpoint mode_of (i : image) : mode :=
  match i with
  | Decoded _ _ _ m => m
  | Converted _ => RGB
  | Flattened _ => RGB
  | Resize i _ _ => mode_of i
  | Crop i _ _ _ _ => mode_of i
  | New _ _ _ => RGB
  | Paste canvas _ _ _ => mode_of canvas
  | Rectangle canvas _ _ _ _ _ => mode_of canvas
  | DrawText canvas _ _ _ _ _ => mode_of canvas
  end.

(** Whether the pixel [(x, y)] of a canvas lies under a pasted image. *)
Fixpoint pasted_over (i : image) (x y : Z) : bool :=
  match i with
  | Paste canvas pasted x0 y0 =>
      let '(w, h) := size pasted in
      ((x0 <=? x) && (x <? x0 + w) && (y0 <=? y) && (y <? y0 + h))
      || pasted_over canvas x y
  | Rectangle canvas _ _ _ _ _ => pasted_over canvas x y
  | DrawText canvas _ _ _ _ _ => pasted_over canvas x y
  | _ => false
  end.

(** The pastes of a canvas, first one first: image, x, y. *)
Fixpoint pastes (i : image) : list (image * Z * Z) :=
  match i with
  | Paste canvas pasted x y => pastes canvas ++ [(pasted, x, y)]
  | Rectangle canvas _ _ _ _ _ => pastes canvas
  | DrawText canvas _ _ _ _ _ => pastes canvas
  | _ => []
  end.

(** [img.resize((w, h), LANCZOS)]: Pillow raises on an empty target. *)
Definition resize (i : image) (w h : Z) : option image :=
  if (0 <? w) && (0 <? h) then Some (Resize i w h) else None.

(** An exception out of Pillow: whether it is a [ValueError], and
    [str(e)]. *)
Record pil_error := PilError {
  is_value_error : bool;
  error_text : pystr
}.

(** The calls into Pillow whose result depends on the file contents or on
    the host; [None] and [false] stand for a raised exception.  Drawing on
    an in-memory canvas is total: the overlay can fail while a font is
    loaded or the text is measured, which comes before the first drawing
    call.  [pil_open] is [Image.open] together with the decoding of the
    pixels, which Pillow puts off until they are first used: nothing is
    written between the two, so that an exception of either ends the
    caller in the same way; [pil_open_raises] is that exception.
    [img.save(path)] picks the format, opens the file for writing, which
    empties it, and runs the encoder: [pil_encode] is the output of an
    encoder that goes through, and for one that does not, [pil_save_left]
    is what the file holds when the exception leaves [save], or [None]
    when [save] raised before it opened the file, and [pil_save_raises] is
    [str(e)] of that exception, an [OSError] for the JPEG encoder. *)
Record PIL := {
  pil_open : bytes -> option (Z * Z * mode);
  pil_open_raises : bytes -> pil_error;
  pil_encode : image -> pystr -> option bytes;
  pil_save_left : image -> pystr -> option bytes;
  pil_save_raises : image -> pystr -> pystr;
  pil_truetype : pystr -> bool;
  pil_load_default : bool;
  pil_textbbox : pystr -> font -> option (Z * Z * Z * Z)
}.

(** ** Card normalisation *)

Definition target_w : Z := 1200.
Definition target_h : Z := 628.

(** [int(w / target_ratio)] *)
Definition scaled_height (w : Z) : option Z :=
  x ← Float.of_int w;
  q ← Float.div x Float.lit_1_91;
  Float.to_int q.

(** [target_h_crop], capped by the height of the source. *)
Definition crop_height (w h : Z) : option Z :=
  target_h_crop ← scaled_height w;
  Some (if target_h_crop >? h then h else target_h_crop).

(** [int(center_y - target_h_crop / 2)] with [center_y = h / 2 - oy]. *)
Definition shifted_top (h target_h_crop oy : Z) : option Z :=
  half_h ← Float.truediv h 2;
  foy ← Float.of_int oy;
  let center_y := Float.sub half_h foy in
  half_crop ← Float.truediv target_h_crop 2;
  Float.to_int (Float.sub center_y half_crop).

(** The body of the inner [try]: the window for an offset. *)
Definition offset_top (h target_h_crop oy : Z) : option Z :=
  top ← shifted_top h target_h_crop oy;
  Some (Z.max 0 (Z.min (h - target_h_crop) top)).

Definition crop_top (h target_h_crop : Z) (offset_y : option Z) : Z :=
  match offset_y with
  | Some oy => default ((h - target_h_crop) `div` 2) (offset_top h target_h_crop oy)
  | None => (h - target_h_crop) `div` 2
  end.

(** The image that the [try] block of
    [_save_uploaded_image_for_image_host] saves, from the opened one. *)
Definition card (img : image) (offset_y : option Z) : option image :=
  let '(w, h) := size img in
  img_ratio ← (if h >? 0 then Float.truediv w h else Some Float.one);
  if Float.leb img_ratio Float.one then
    let new_h := target_h in
    scale ← Float.truediv new_h h;
    fw ← Float.of_int w;
    new_w ← Float.to_int (Float.mul fw scale);
    img_resized ← resize img new_w new_h;
    let canvas := New target_w target_h (0, 0, 0) in
    let paste_x := (target_w - new_w) `div` 2 in
    Some (Paste canvas img_resized paste_x 0)
  else
    target_h_crop ← crop_height w h;
    let top := crop_top h target_h_crop offset_y in
    let bottom := top + target_h_crop in
    resize (Crop img 0 top w bottom) target_w target_h.

(** What [img.save(path)] does to a file that exists. *)
Inductive saved :=
| Saved (data : bytes)      (* the file holds the encoded image *)
| Broken (partial : bytes)  (* [save] raised after it opened the file *)
| Untouched.                (* an exception came before the file was opened *)

Definition pil_save (p : PIL) (img : image) (name : pystr) : saved :=
  match pil_encode p img name with
  | Some data => Saved data
  | None =>
      match pil_save_left p img name with
      | Some partial => Broken partial
      | None => Untouched
      end
  end.

(** The whole [try] block: open, transform, save over the uploaded
    file. *)
Definition normalize_card (p : PIL) (data : bytes) (saved_name : pystr)
    (offset_y : option Z) : saved :=
  match pil_open p data with
  | None => Untouched
  | Some (w, h, m) =>
      match card (Decoded data w h m) offset_y with
      | None => Untouched
      | Some img => pil_save p img saved_name
      end
  end.

(** The content of a file that held [before] once [save] ran over it. *)
Definition file_after (before : bytes) (s : saved) : bytes :=
  match s with
  | Saved data => data
  | Broken partial => partial
  | Untouched => before
  end.

(** ** The grid composer *)

Inductive exn :=
| ValueError (msg : pystr)
| OtherError.

Inductive result (A : Type) :=
| Ok (a : A)
| Raise (e : exn).
Arguments Ok {A} a.
Arguments Raise {A} e.

(** The layout table: columns and rows by number of images. *)
Definition layout (num_images : Z) : Z * Z :=
  if num_images =? 2 then (2, 1)
  else if num_images =? 3 then (3, 1)
  else if num_images =? 4 then (2, 2)
  else (3, 2).

(** Column and row of the image at [idx]. *)
Definition cell_of (num_images cols idx : Z) : Z * Z :=
  if num_images =? 5 then
    if idx <? 3 then (idx, 0) else (idx - 3 + 1, 1)
  else (idx `mod` cols, idx `div` cols).

(** The loop over [enumerate(image_files[:num_images])]. *)
Fixpoint paste_cells (canvas : image) (num_images cols cell_w cell_h : Z)
    (idx : Z) (image_files : list image) : option image :=
  match image_files with
  | [] => Some canvas
  | img :: rest =>
      img_resized ← resize img cell_w cell_h;
      let '(col, row) := cell_of num_images cols idx in
      let x := col * cell_w in
      let y := row * cell_h in
      paste_cells (Paste canvas img_resized x y) num_images cols cell_w cell_h
        (idx + 1) rest
  end.

(** The font of the overlay: two TrueType files, then the built-in one. *)
Definition overlay_font (p : PIL) (font_size : Z) : option font :=
  if pil_truetype p (py "arial.ttf") then Some (TrueType (py "arial.ttf") font_size)
  else if pil_truetype p (py "/System/Library/Fonts/Helvetica.ttc")
  then Some (TrueType (py "/System/Library/Fonts/Helvetica.ttc") font_size)
  else if pil_load_default p then Some DefaultFont
  else None.

(** The body of the [try] block that draws the overlay. *)
Definition draw_overlay (p : PIL) (canvas : image) (overlay_text : pystr)
    (grid_w grid_h : Z) : option image :=
  let font_size := 120 in
  f ← overlay_font p font_size;
  '(b0, b1, b2, b3) ← pil_textbbox p overlay_text f;
  let text_w := b2 - b0 in
  let text_h := b3 - b1 in
  let padding := 20 in
  let box_x := grid_w - text_w - padding * 2 in
  let box_y := grid_h - text_h - padding * 2 in
  let backed :=
    Rectangle canvas (box_x - padding) (box_y - padding)
      (box_x + text_w + padding) (box_y + text_h + padding)
      (255, 255, 255, 230) in
  Some (DrawText backed box_x box_y overlay_text (0, 0, 0) f).

Definition _create_grid_image (pil : option PIL) (image_files : list image)
    (overlay_text : option pystr) (target_size : Z * Z) : result image :=
  match pil with
  | None => Raise (ValueError (py "Pillow (PIL) is required for grid image generation"))
  | Some p =>
      if Z.of_nat (length image_files) <? 2
      then Raise (ValueError (py "Need at least 2 images for grid"))
      else
        let num_images := Z.of_nat (length image_files) in
        let '(num_images, image_files) :=
          if num_images >? 5 then (5, take 5 image_files)
          else (num_images, image_files) in
        let '(cols, rows) := layout num_images in
        let '(grid_w, grid_h) := target_size in
        let cell_w := grid_w `div` cols in
        let cell_h := grid_h `div` rows in
        let canvas := New grid_w grid_h (255, 255, 255) in
        match paste_cells canvas num_images cols cell_w cell_h 0
                (take (Z.to_nat num_images) image_files) with
        | None => Raise (ValueError (py "height and width must be > 0"))
        | Some canvas =>
            if truthy overlay_text
            then Ok (default canvas
                       (draw_overlay p canvas (or_else overlay_text []) grid_w grid_h))
            else Ok canvas
        end
  end.

(** ** The image registry *)

(** One row of [images]. *)
Record ImageRecord := ImageRow {
  filename : pystr;
  content_type : pystr;
  image_title : pystr;
  image_description : pystr;
  created_at : Z;
  expires_at : option Z;
  delete_token : pystr
}.

(** The [images] table, keyed by [id], and the upload directory. *)
Record store := Store {
  images : gmap pystr ImageRecord;
  uploads : gmap pystr bytes
}.

(** [expires_at IS NOT NULL AND expires_at <= now] *)
Definition is_expired (now : Z) (row : ImageRecord) : bool :=
  match expires_at row with
  | Some e => e <=? now
  | None => false
  end.

(** [os.remove] of the file, a missing file tolerated, then [DELETE]. *)
Definition remove_row (id : pystr) (row : ImageRecord) (st : store) : store :=
  Store (delete id (images st)) (delete (filename row) (uploads st)).

Definition _cleanup_expired_images (now : Z) (st : store) : store :=
  let rows := filter (λ kr, is_expired now kr.2 = true) (images st) in
  map_fold remove_row st rows.

(** [_is_image_not_expired] *)
Definition _is_image_not_expired (now : Z) (expires : option Z) : bool :=
  match expires with
  | None => true
  | Some e => e >? now
  end.

(** [INSERT INTO images]: the primary key makes a second row with the
    same id an [IntegrityError]. *)
Definition insert_image (id : pystr) (row : ImageRecord) (st : store) : option store :=
  match images st !! id with
  | Some _ => None
  | None => Some (Store (<[id := row]> (images st)) (uploads st))
  end.

Definition write_file (name : pystr) (data : bytes) (st : store) : store :=
  Store (images st) (<[name := data]> (uploads st)).

(** *** Deletion *)

Definition token_truthy (t : option jtoken) : bool :=
  match t with
  | Some (JString s) => truthy (Some s)
  | Some (JOther b) => b
  | None => false
  end.

(** The token of a delete request: the form field, else the JSON field. *)
Definition request_token (req : request) : option jtoken :=
  let token := JString <$> form_delete_token req in
  if negb (token_truthy token) && req_is_json req
  then json_delete_token req
  else token.

(** [token != delete_token] *)
Definition token_differs (t : option jtoken) (stored : pystr) : bool :=
  match t with
  | Some (JString s) => negb (bool_decide (s = stored))
  | _ => true
  end.

Definition json_error (msg : pystr) (code : Z) : response :=
  with_status (Json [(py "error", VStr msg)]) code.

Definition json_ok : response := ok (Json [(py "ok", VBool true)]).

(** [now_sweep] and [now] are the two readings of the clock that one call
    takes, the first inside [_cleanup_expired_images]. *)
Definition api_delete_image (now_sweep now : Z) (image_id : pystr)
    (req : request) (st : store) : response * store :=
  let st := _cleanup_expired_images now_sweep st in
  let token := request_token req in
  if negb (token_truthy token)
  then (json_error (py "Missing delete_token") 400, st)
  else
    match images st !! image_id with
    | None => (json_error (py "Not found") 404, st)
    | Some row =>
        if is_expired now row
        then (json_ok, remove_row image_id row st)
        else if token_differs token (delete_token row)
        then (json_error (py "Invalid delete_token") 403, st)
        else (json_ok, remove_row image_id row st)
    end.

(** *** Uploads *)

(** [str.rfind] of one character: the last index, or [-1]. *)
Fixpoint rfind_from (c : N) (s : pystr) (i last : Z) : Z :=
  match s with
  | [] => last
  | a :: s' => rfind_from c s' (i + 1) (if (a =? c)%N then i else last)
  end.

Definition rfind (c : N) (s : pystr) : Z := rfind_from c s 0 (-1).

(** [os.path.splitext]: the extension starts at the last dot of the last
    path component, leading dots of the component apart. *)
Definition splitext (p : pystr) : pystr * pystr :=
  let sep_index := rfind 47 p in
  let dot_index := rfind 46 p in
  if dot_index >? sep_index then
    let stem := drop (Z.to_nat (sep_index + 1)) (take (Z.to_nat dot_index) p) in
    if existsb (fun a => negb (a =? 46)%N) stem
    then (take (Z.to_nat dot_index) p, drop (Z.to_nat dot_index) p)
    else (p, [])
  else (p, []).

Definition ALLOWED_IMAGE_EXTENSIONS : list pystr :=
  [ py ".png"; py ".jpg"; py ".jpeg"; py ".webp"; py ".gif" ].

Definition _is_allowed_image_filename (name : pystr) : bool :=
  let ext := (splitext name).2 in
  bool_decide (py_lower ext ∈ ALLOWED_IMAGE_EXTENSIONS).

(** A werkzeug [FileStorage]. *)
Record FileStorage := {
  fs_filename : option pystr;
  fs_mimetype : pystr;
  fs_content_type : pystr;
  fs_data : bytes
}.

(** [url_for(..., _external=True)] for the three endpoints used. *)
Definition url_for_static (req : request) (name : pystr) : pystr :=
  host_url req ++ py "static/uploads/" ++ name.
Definition url_for_image_view (req : request) (image_id : pystr) : pystr :=
  host_url req ++ py "i/" ++ image_id.
Definition url_for_delete (req : request) (image_id : pystr) : pystr :=
  host_url req ++ py "api/images/" ++ image_id ++ py "/delete".

(** The fields of the form of [api_upload]. *)
Record upload_form := {
  up_file : option FileStorage;
  up_title : option pystr;
  up_description : option pystr;
  up_expiry_minutes : option pystr;
  up_offset_y : option pystr
}.

(** The fields of the form of [api_create_grid]. *)
Record grid_form := {
  grid_files : list FileStorage;
  grid_overlay_text : option pystr
}.

Inductive loaded :=
| Loaded (pil_images : list image)
| NoPillow
| OpenFailed (e : pil_error).

Section Handlers.

Variable secure_filename : pystr -> pystr.   (* werkzeug.utils.secure_filename *)
Variable parse_int : pystr -> option Z.      (* int(s), None for a ValueError *)
Variable strip : pystr -> pystr.             (* str.strip *)

Definition valid_upload (file_storage : FileStorage) : bool :=
  let name := secure_filename (or_else (fs_filename file_storage) []) in
  let content_type := or_else (Some (fs_mimetype file_storage)) (fs_content_type file_storage) in
  truthy (Some name) && _is_allowed_image_filename name
  && truthy (Some content_type) && startswith (py "image/") content_type.

Definition _save_uploaded_image_for_image_host (pil : option PIL) (req : request)
    (file_storage : FileStorage) (image_id : pystr) (offset_y : option Z)
    (st : store) : result (pystr * pystr * pystr) * store :=
  let name := secure_filename (or_else (fs_filename file_storage) []) in
  if negb (truthy (Some name)) || negb (_is_allowed_image_filename name)
  then (Raise (ValueError (py "Invalid image file type")), st)
  else
    let content_type := or_else (Some (fs_mimetype file_storage)) (fs_content_type file_storage) in
    if negb (truthy (Some content_type)) || negb (startswith (py "image/") content_type)
    then (Raise (ValueError (py "Invalid image file type")), st)
    else
      let ext := (splitext name).2 in
      let saved_name := image_id ++ py_lower ext in
      let st := write_file saved_name (fs_data file_storage) st in
      let st :=
        match pil with
        | Some p =>
            (* try: ... img.save(save_path)  except Exception: pass *)
            match normalize_card p (fs_data file_storage) saved_name offset_y with
            | Saved card_bytes => write_file saved_name card_bytes st
            | Broken partial => write_file saved_name partial st
            | Untouched => st
            end
        | None => st
        end in
      let direct_url := url_for_static req saved_name in
      let view_url := url_for_image_view req image_id in
      (Ok (saved_name, direct_url, view_url), st).

(** What SQLite stores as an INTEGER: a Python [int] outside of 64 bits
    makes [execute] raise an [OverflowError]. *)
Definition sqlite_integer (z : Z) : bool := (- 2 ^ 63 <=? z) && (z <? 2 ^ 63).

(** [expires_at] from the raw form field; [None] is the 400 answer. *)
Definition upload_expiry (now : Z) (raw : option pystr) : option (option Z) :=
  if truthy raw then
    match parse_int (or_else raw []) with
    | Some expiry_minutes =>
        Some (if expiry_minutes >? 0 then Some (now + expiry_minutes * 60) else None)
    | None => None
    end
  else Some None.

Definition upload_offset (raw : option pystr) : option Z :=
  if truthy raw then parse_int (or_else raw []) else None.

(** [image_id] and [delete_token] are the two random draws of the call,
    the three times are its readings of the clock. *)
Definition api_upload (pil : option PIL) (now_sweep now_expiry now_created : Z)
    (image_id token : pystr) (req : request) (form : upload_form)
    (st : store) : response * store :=
  let st := _cleanup_expired_images now_sweep st in
  match up_file form with
  | None => (json_error (py "Missing file") 400, st)
  | Some file_storage =>
      if negb (truthy (fs_filename file_storage))
      then (json_error (py "Missing file") 400, st)
      else
        let title := strip (or_else (up_title form) []) in
        let description := strip (or_else (up_description form) []) in
        match upload_expiry now_expiry (up_expiry_minutes form) with
        | None => (json_error (py "Invalid expiry_minutes") 400, st)
        | Some expires =>
            let offset_y_val := upload_offset (up_offset_y form) in
            match _save_uploaded_image_for_image_host pil req file_storage
                    image_id offset_y_val st with
            | (Raise (ValueError e), st) => (json_error e 400, st)
            | (Raise OtherError, st) => (json_error (py "Internal Server Error") 500, st)
            | (Ok (saved_name, direct_url, view_url), st) =>
                let row := ImageRow saved_name (fs_mimetype file_storage) title
                             description now_created expires token in
                if negb (from_option sqlite_integer true expires)
                then (json_error (py "Internal Server Error") 500, st)
                else
                match insert_image image_id row st with
                | None => (json_error (py "Internal Server Error") 500, st)
                | Some st =>
                    (ok (Json [ (py "id", VStr image_id);
                                (py "direct_url", VStr direct_url);
                                (py "view_url", VStr view_url);
                                (py "delete_url", VStr (url_for_delete req image_id));
                                (py "delete_token", VStr token);
                                (py "expires_at", from_option VInt VNone expires) ]), st)
                end
            end
        end
  end.

(** *** Grids *)

(** The loop of [api_create_grid] that opens the valid files. *)
Fixpoint load_images (pil : option PIL) (files : list FileStorage) : loaded :=
  match files with
  | [] => Loaded []
  | file_storage :: rest =>
      if negb (truthy (fs_filename file_storage)) then load_images pil rest
      else if negb (valid_upload file_storage) then load_images pil rest
      else
        match pil with
        | None => NoPillow
        | Some p =>
            match pil_open p (fs_data file_storage) with
            | None => OpenFailed (pil_open_raises p (fs_data file_storage))
            | Some (w, h, m) =>
                let img := Decoded (fs_data file_storage) w h m in
                let img :=
                  match m with
                  | RGBA => Flattened img
                  | RGB => img
                  | OtherMode => Converted img
                  end in
                match load_images pil rest with
                | Loaded pil_images => Loaded (img :: pil_images)
                | failure => failure
                end
            end
        end
  end.

(** The two [except] clauses of [api_create_grid]. *)
Definition grid_failed (text : pystr) : response :=
  json_error (py "Grid creation failed: " ++ text) 500.

Definition api_create_grid (pil : option PIL) (now_sweep now_created : Z)
    (image_id token : pystr) (req : request) (form : grid_form)
    (st : store) : response * store :=
  let st := _cleanup_expired_images now_sweep st in
  let files := grid_files form in
  let overlay_text := strip (or_else (grid_overlay_text form) []) in
  if Z.of_nat (length files) <? 2
  then (json_error (py "Need at least 2 images") 400, st)
  else if Z.of_nat (length files) >? 5
  then (json_error (py "Maximum 5 images allowed") 400, st)
  else
    match load_images pil files with
    | NoPillow => (json_error (py "Pillow (PIL) is required for grid image generation") 500, st)
    | OpenFailed e =>
        (if is_value_error e then json_error (error_text e) 400
         else grid_failed (error_text e), st)
    | Loaded pil_images =>
        if Z.of_nat (length pil_images) <? 2
        then (json_error (py "Need at least 2 valid images") 400, st)
        else
          match _create_grid_image pil pil_images
                  (if truthy (Some overlay_text) then Some overlay_text else None)
                  (1200, 628) with
          | Raise (ValueError e) => (json_error e 400, st)
          | Raise OtherError => (grid_failed [], st)
          | Ok grid_image =>
              let ext := (splitext (secure_filename
                            (or_else (head files ≫= fs_filename) []))).2 in
              let ext := if truthy (Some ext) then ext else py ".jpg" in
              let saved_name := image_id ++ py_lower ext in
              match pil ≫= (λ p, pil_encode p grid_image (py "JPEG")) with
              | None =>
                  (* a file that [save] created is removed again, one
                     that was there keeps what [save] left in it *)
                  let st :=
                    match pil ≫= (λ p, pil_save_left p grid_image (py "JPEG")),
                          uploads st !! saved_name with
                    | Some partial, Some _ => write_file saved_name partial st
                    | _, _ => st
                    end in
                  (grid_failed (default [] (pil ≫= (λ p,
                     Some (pil_save_raises p grid_image (py "JPEG"))))), st)
              | Some grid_bytes =>
                  let st := write_file saved_name grid_bytes st in
                  let row := ImageRow saved_name (py "image/jpeg") [] []
                               now_created None token in
                  match insert_image image_id row st with
                  | None =>
                      (* sqlite3.IntegrityError *)
                      (grid_failed (py "UNIQUE constraint failed: images.id"), st)
                  | Some st =>
                      (ok (Json [ (py "id", VStr image_id);
                                  (py "direct_url", VStr (url_for_static req saved_name));
                                  (py "view_url", VStr (url_for_image_view req image_id));
                                  (py "delete_url", VStr (url_for_delete req image_id));
                                  (py "delete_token", VStr token) ]), st)
                  end
              end
          end
    end.

End Handlers.

(** ** Notions of the specification *)

(** [ua], compared case-insensitively, contains the signature [sig]. *)
Definition ci_contains (sig ua : pystr) : Prop :=
  ∃ pre mid post, ua = pre ++ mid ++ post ∧ py_lower mid = py_lower sig.

(** The user-agent carries one of the crawler signatures. *)
Definition recognized_crawler (ua : pystr) : Prop :=
  ∃ sig, sig ∈ crawler_signatures ∧ ci_contains sig ua.

(** The site root: [request.host_url] without its trailing slash. *)
Definition site_root (req : request) : pystr := rstrip 47 (host_url req).

(** The value that a rendered template received under [key]. *)
Definition template_arg (key : pystr) (r : response) : option pyval :=
  match content r with
  | Template _ context =>
      snd <$> List.find (λ kv, bool_decide (kv.1 = key)) context
  | _ => None
  end.

(** ** Sample data *)

Definition ex_unquote : pystr -> option pystr := Some.

Definition ex_link : LinkRecord :=
  LinkRow (py "aB3xYz") (py "https://example.com/landing")
    (Some (py "uploads/aB3xYz.png")) (py "Title") (Some (py "Text"))
    None None None None.

Definition ex_links : gmap pystr LinkRecord := {[ py "aB3xYz" := ex_link ]}.

Definition ex_request (path : pystr) (ua : option pystr) : request :=
  Request (py "https") (py "short.example") path
    (py "https://short.example" ++ path) ua None false None [].

Definition ex_bot_req : request :=
  ex_request (py "/aB3xYz") (Some (py "FacebookExternalHit/1.1")).

Definition ex_human_req : request :=
  ex_request (py "/aB3xYz") (Some (py "Mozilla/5.0 (X11; Linux x86_64)")).

Definition ex_link_with (image_ref : option pystr) : LinkRecord :=
  LinkRow (py "aB3xYz") (py "https://example.com/landing") image_ref
    (py "Title") None None None None None.

(** The path [/] followed by five Thai letters, as the server hands it
    over (already percent-decoded). *)
Definition ex_thai_path : pystr := [47; 3621; 3636; 3591; 3585; 3660]%N.

Definition ex_thai_req : request :=
  ex_request ex_thai_path (Some (py "Mozilla/5.0 (X11; Linux x86_64)")).

Definition ex_row (expires : option Z) : ImageRecord :=
  ImageRow (py "0a1b.png") (py "image/png") [] [] 100 expires (py "secret").

Definition ex_png : bytes := [137; 80; 78; 71]%N.

Definition ex_store (expires : option Z) : store :=
  Store {[ py "0a1b" := ex_row expires ]} {[ py "0a1b.png" := ex_png ]}.

Definition ex_delete_req (token : option pystr) : request :=
  Request (py "https") (py "short.example") (py "/api/images/0a1b/delete")
    (py "https://short.example/api/images/0a1b/delete") None token false None [].

(** A toy Pillow: the first two bytes of a file give its width and height
    in hundreds of pixels, an encoded image records its size, no TrueType
    font is installed and a glyph is 60 by 90 pixels. *)
Definition ex_pil : PIL := {|
  pil_open := λ data,
    match data with
    | w :: h :: _ => Some (Z.of_N w * 100, Z.of_N h * 100, RGB)
    | _ => None
    end;
  pil_open_raises := λ _, PilError false (py "cannot identify image file");
  pil_encode := λ img _, Some [Z.to_N (size img).1; Z.to_N (size img).2];
  pil_save_left := λ _ _, None;
  pil_save_raises := λ _ _, py "encoder error -2 when writing image file";
  pil_truetype := λ _, false;
  pil_load_default := true;
  pil_textbbox := λ text _, Some (0, 0, 60 * Z.of_nat (length text), 90)
|}.

(** A Pillow that decodes nothing and has no font at all. *)
Definition ex_broken_pil : PIL := {|
  pil_open := λ _, None;
  pil_open_raises := λ _, PilError false (py "cannot identify image file");
  pil_encode := λ _ _, None;
  pil_save_left := λ _ _, None;
  pil_save_raises := λ _ _, py "encoder error -2 when writing image file";
  pil_truetype := λ _, false;
  pil_load_default := false;
  pil_textbbox := λ _ _, None
|}.

(** A Pillow like [ex_pil] that cannot measure text. *)
Definition ex_fontless_pil : PIL := {|
  pil_open := pil_open ex_pil;
  pil_open_raises := λ _, PilError false (py "cannot identify image file");
  pil_encode := pil_encode ex_pil;
  pil_save_left := λ _ _, None;
  pil_save_raises := λ _ _, py "encoder error -2 when writing image file";
  pil_truetype := λ _, false;
  pil_load_default := true;
  pil_textbbox := λ _ _, None
|}.

(** A Pillow like [ex_pil] that reads every file as RGBA and whose
    encoder, as the one of JPEG, takes RGB alone: for another mode it
    raises once [save] has opened the file. *)
Definition ex_jpeg_pil : PIL := {|
  pil_open := λ data,
    match data with
    | w :: h :: _ => Some (Z.of_N w * 100, Z.of_N h * 100, RGBA)
    | _ => None
    end;
  pil_open_raises := λ _, PilError false (py "cannot identify image file");
  pil_encode := λ img _,
    match mode_of img with
    | RGB => Some [Z.to_N (size img).1; Z.to_N (size img).2]
    | _ => None
    end;
  pil_save_left := λ _ _, Some [];
  pil_save_raises := λ img _, py "cannot write mode RGBA as JPEG";
  pil_truetype := λ _, false;
  pil_load_default := true;
  pil_textbbox := λ text _, Some (0, 0, 60 * Z.of_nat (length text), 90)
|}.

(** An RGBA image of 1600 by 1000 pixels, as [ex_jpeg_pil] reads it. *)
Definition ex_rgba_png : bytes := [16; 10; 255]%N.

Definition ex_file (name : pystr) (data : bytes) : FileStorage :=
  {| fs_filename := Some name; fs_mimetype := py "image/png";
     fs_content_type := py "image/png"; fs_data := data |}.

(** [int] on a string of decimal digits. *)
Definition ex_parse_int (s : pystr) : option Z :=
  match s with
  | [] => None
  | _ =>
      foldl (λ acc c,
               n ← acc;
               if ((48 <=? c) && (c <=? 57))%N
               then Some (n * 10 + Z.of_N (c - 48))
               else None) (Some 0) s
  end.

Definition ex_upload_form (data : bytes) (minutes : option pystr) : upload_form :=
  {| up_file := Some (ex_file (py "Photo.PNG") data); up_title := Some (py "A");
     up_description := None; up_expiry_minutes := minutes; up_offset_y := None |}.

(** The RGBA image, uploaded under a JPEG name. *)
Definition ex_rgba_form : upload_form :=
  {| up_file := Some {| fs_filename := Some (py "photo.jpg");
                        fs_mimetype := py "image/jpeg";
                        fs_content_type := py "image/jpeg";
                        fs_data := ex_rgba_png |};
     up_title := None; up_description := None;
     up_expiry_minutes := None; up_offset_y := None |}.

Definition ex_grid_form (n : nat) (overlay : option pystr) : grid_form :=
  {| grid_files := replicate n (ex_file (py "tile.png") [8; 6]%N);
     grid_overlay_text := overlay |}.

Definition ex_upload_req : request :=
  Request (py "https") (py "short.example") (py "/api/upload")
    (py "https://short.example/api/upload") None None false None [].

Definition ex_tiles : list image :=
  [ Decoded [1]%N 640 480 RGB; Decoded [2]%N 300 300 RGB;
    Decoded [3]%N 1024 768 RGB; Decoded [4]%N 50 900 RGB;
    Decoded [5]%N 1200 628 RGB ].



(** ** Link creation *)

(** [string.ascii_letters + string.digits] *)
Definition slug_alphabet : pystr :=
  py "abcdefghijklmnopqrstuvwxyzABCDEFGHIJKLMNOPQRSTUVWXYZ0123456789".

(** [generate_slug(length=6)]: [picks i] is the draw of [random.choices]
    for the character [i], read as an index into the alphabet. *)
Definition generate_slug (length : nat) (picks : nat -> nat) : pystr :=
  (λ i, default 0%N
          (slug_alphabet !! (picks i `mod` Datatypes.length slug_alphabet)%nat))
  <$> seq 0 length.

(** The loop of [insert_link_with_unique_slug_v2]: [draws i] are the picks
    of the attempt [i]; a taken slug is the [IntegrityError] of the
    primary key, and the exhausted budget the [RuntimeError]. *)
Fixpoint insert_attempts (draws : nat -> nat -> nat) (i attempts : nat)
    (row : pystr -> LinkRecord) (links : gmap pystr LinkRecord)
    : result pystr * gmap pystr LinkRecord :=
  match attempts with
  | O => (Raise OtherError, links)
  | S n =>
      let slug := generate_slug 6 (draws i) in
      match links !! slug with
      | None => (Ok slug, <[slug := row slug]> links)
      | Some _ => insert_attempts draws (S i) n row links
      end
  end.

Definition insert_link_with_unique_slug_v2 (draws : nat -> nat -> nat)
    (dest img_ref link_title link_description link_card_size : pystr)
    (link_site_name link_button_text link_og_url : option pystr)
    (links : gmap pystr LinkRecord) : result pystr * gmap pystr LinkRecord :=
  insert_attempts draws 0 20
    (λ slug, LinkRow slug dest (Some img_ref) link_title (Some link_description)
               (Some link_card_size) link_site_name link_button_text link_og_url)
    links.

(** The fields of the form of [create]. *)
Record create_form := {
  cf_dest_url : option pystr;
  cf_img_url : option pystr;
  cf_title : option pystr;
  cf_description : option pystr;
  cf_card_size : option pystr;
  cf_site_name : option pystr;
  cf_button_text : option pystr;
  cf_og_url : option pystr;
  cf_img_file : option FileStorage
}.

(** The [links] table and the upload directory. *)
Record site := Site {
  site_links : gmap pystr LinkRecord;
  site_uploads : gmap pystr bytes
}.

(** [UPDATE links SET img_url=? WHERE slug=?] *)
Definition update_img_url (slug saved_url : pystr)
    (links : gmap pystr LinkRecord) : gmap pystr LinkRecord :=
  alter (λ link, LinkRow (link_slug link) (dest_url link) (Some saved_url)
                   (title link) (description link) (card_size link)
                   (site_name link) (button_text link) (og_url link)) slug links.

Section Creation.

Variable secure_filename : pystr -> pystr.
Variable strip : pystr -> pystr.

Definition _save_uploaded_image (req : request) (file_storage : FileStorage)
    (slug : pystr) (uploads : gmap pystr bytes)
    : result pystr * gmap pystr bytes :=
  let name := secure_filename (or_else (fs_filename file_storage) []) in
  if negb (truthy (Some name)) || negb (_is_allowed_image_filename name)
  then (Raise (ValueError (py "Invalid image file type")), uploads)
  else
    let content_type := or_else (Some (fs_mimetype file_storage)) (fs_content_type file_storage) in
    if negb (truthy (Some content_type)) || negb (startswith (py "image/") content_type)
    then (Raise (ValueError (py "Invalid image file type")), uploads)
    else
      let ext := (splitext name).2 in
      let saved_name := slug ++ py_lower ext in
      (Ok (url_for_static req saved_name),
       <[saved_name := fs_data file_storage]> uploads).

(** Whether the form carries a file with a name. *)
Definition has_file (form : create_form) : bool :=
  match cf_img_file form with
  | Some file_storage => truthy (fs_filename file_storage)
  | None => false
  end.

Definition create (draws : nat -> nat -> nat) (req : request) (form : create_form)
    (s : site) : response * site :=
  let description := or_else (cf_description form) [] in
  let card_size := or_else (cf_card_size form) [] in
  let site_name := strip (or_else (cf_site_name form) []) in
  let button_text := strip (or_else (cf_button_text form) []) in
  let og_url := or_none (Some (strip (or_else (cf_og_url form) []))) in
  if negb (truthy (cf_dest_url form)) || negb (truthy (cf_title form))
  then (with_status (Text (py "Missing required fields")) 400, s)
  else if negb (truthy (cf_img_url form)) && negb (has_file form)
  then (with_status (Text (py "Missing image (provide image URL or upload a file)")) 400, s)
  else
    let dest := or_else (cf_dest_url form) [] in
    let link_title := or_else (cf_title form) [] in
    match insert_link_with_unique_slug_v2 draws dest (or_else (cf_img_url form) [])
            link_title description card_size (or_none (Some site_name))
            (or_none (Some button_text)) og_url (site_links s) with
    | (Raise _, links) =>
        (with_status (Text (py "Internal Server Error")) 500, Site links (site_uploads s))
    | (Ok slug, links) =>
        let result_page final_img_url :=
          render_template (py "result.html")
            [ (py "full_link", VStr (host_url req ++ slug));
              (py "title", VStr link_title);
              (py "description", VStr description);
              (py "dest_url", VStr dest);
              (py "img_url", VStr final_img_url);
              (py "card_size", VStr card_size);
              (py "site_name", VStr site_name);
              (py "button_text", VStr button_text) ] in
        match cf_img_file form with
        | Some file_storage =>
            if truthy (fs_filename file_storage) then
              match _save_uploaded_image req file_storage slug (site_uploads s) with
              | (Raise (ValueError e), uploads) =>
                  (with_status (Text e) 400, Site links uploads)
              | (Raise OtherError, uploads) =>
                  (with_status (Text (py "Internal Server Error")) 500, Site links uploads)
              | (Ok saved_url, uploads) =>
                  (result_page saved_url, Site (update_img_url slug saved_url links) uploads)
              end
            else (result_page (or_else (cf_img_url form) []), Site links (site_uploads s))
        | None => (result_page (or_else (cf_img_url form) []), Site links (site_uploads s))
        end
    end.

End Creation.

(** ** The CSRF check *)

(** [request.get_json(silent=True)], as far as [_csrf_protect] looks at it: a
    dict with its [csrf_token] entry, a falsy value, or another value,
    which has no [get]. *)
Inductive json_body :=
| JsonDict (csrf_token : option jtoken)
| JsonFalsy
| JsonOther.

Record csrf_request := {
  cr_method : pystr;
  cr_form_token : option pystr;        (* request.form.get('csrf_token') *)
  cr_is_json : bool;
  cr_json : json_body;
  cr_x_csrftoken : option pystr;       (* header X-CSRFToken *)
  cr_x_csrf_token : option pystr       (* header X-CSRF-Token *)
}.

(** What [before_request] hands back: nothing, a response, or an
    exception that escapes. *)
Inductive csrf_verdict :=
| Proceed
| Refuse (r : response)
| Crash.

Definition safe_methods : list pystr :=
  [ py "GET"; py "HEAD"; py "OPTIONS"; py "TRACE" ].

(** [a or b] on two header values. *)
Definition or_header (a b : option pystr) : option pystr :=
  if truthy a then a else b.

(** [token != session.get('_csrf_token')] *)
Definition csrf_differs (token : option jtoken) (session_token : option pystr) : bool :=
  match token, session_token with
  | None, None => false
  | Some (JString a), Some b => negb (bool_decide (a = b))
  | _, _ => true
  end.

Definition _csrf_protect (session_token : option pystr) (r : csrf_request)
    : csrf_verdict :=
  if bool_decide (cr_method r ∈ safe_methods) then Proceed
  else
    let token := JString <$> cr_form_token r in
    let json_step :=
      if negb (token_truthy token) && cr_is_json r then
        match cr_json r with
        | JsonDict t => Some t
        | JsonFalsy => Some None
        | JsonOther => None
        end
      else Some token in
    match json_step with
    | None => Crash
    | Some token =>
        let token :=
          if negb (token_truthy token)
          then JString <$> or_header (cr_x_csrftoken r) (cr_x_csrf_token r)
          else token in
        if negb (token_truthy token) || csrf_differs token session_token
        then Refuse (with_status (Text (py "Invalid CSRF token")) 400)
        else Proceed
    end.

(** [_generate_csrf_token]: [fresh] is the draw of [secrets.token_urlsafe]
    that is used when the session has no token yet. *)
Definition _generate_csrf_token (session_token : option pystr) (fresh : pystr)
    : pystr * option pystr :=
  if truthy session_token then (or_else session_token [], session_token)
  else (fresh, Some fresh).

(** ** Viewing an image *)

Definition image_view (now_sweep now : Z) (image_id : pystr) (req : request)
    (st : store) : response * store :=
  let st := _cleanup_expired_images now_sweep st in
  match images st !! image_id with
  | None => (with_status (Text (py "Image not found")) 404, st)
  | Some row =>
      if negb (_is_image_not_expired now (expires_at row))
      then (with_status (Text (py "Image not found")) 404, st)
      else
        (render_template (py "image.html")
           [ (py "direct_url", VStr (url_for_static req (filename row)));
             (py "view_url", VStr (url_for_image_view req image_id));
             (py "title", VStr (image_title row));
             (py "description", VStr (image_description row)) ], st)
  end.

(** [upload_page]: the sweep, then the form. *)
Definition upload_page (now_sweep : Z) (st : store) : response * store :=
  (render_template (py "upload.html") [], _cleanup_expired_images now_sweep st).

(** ** Further notions *)


(** A character of [[A-Za-z0-9]]. *)
Definition is_alnum (c : N) : bool :=
  ((97 <=? c) && (c <=? 122) || (65 <=? c) && (c <=? 90) || (48 <=? c) && (c <=? 57))%N.

(** A pasted image lies inside a canvas of [w] by [h] pixels. *)
Definition paste_inside (w h : Z) (p : image * Z * Z) : Prop :=
  let '(img, x, y) := p in
  0 <= x ∧ 0 <= y ∧ x + (size img).1 <= w ∧ y + (size img).2 <= h.

(** The link row that [create] inserts for a form. *)
Definition created_row (strip : pystr -> pystr) (form : create_form)
    (slug : pystr) (img_ref : pystr) : LinkRecord :=
  LinkRow slug (or_else (cf_dest_url form) []) (Some img_ref)
    (or_else (cf_title form) []) (Some (or_else (cf_description form) []))
    (Some (or_else (cf_card_size form) []))
    (or_none (Some (strip (or_else (cf_site_name form) []))))
    (or_none (Some (strip (or_else (cf_button_text form) []))))
    (or_none (Some (strip (or_else (cf_og_url form) [])))).

(** ** Further sample data *)

(** The picks of attempt [i]: the index [i] for every character. *)
Definition ex_draws (i : nat) : nat -> nat := λ _, i.

(** A table in which the first slug drawn by [ex_draws] is taken. *)
Definition ex_taken : gmap pystr LinkRecord :=
  {[ py "aaaaaa" := LinkRow (py "aaaaaa") (py "https://example.org/") None
                      (py "Old") None None None None None ]}.

Definition ex_site : site := Site ex_taken ∅.

Definition ex_create_form (link_title image_ref : option pystr)
    (file : option FileStorage) : create_form :=
  {| cf_dest_url := Some (py "https://example.com/landing");
     cf_img_url := image_ref; cf_title := link_title;
     cf_description := Some (py "Text"); cf_card_size := Some (py "large");
     cf_site_name := None; cf_button_text := None; cf_og_url := None;
     cf_img_file := file |}.

(** A destination with a line break, which the form of [create] takes. *)
Definition ex_crlf_dest : pystr :=
  py "https://example.com/" ++ [13; 10]%N ++ py "Set-Cookie: a=b".

Definition ex_crlf_form : create_form :=
  {| cf_dest_url := Some ex_crlf_dest;
     cf_img_url := Some (py "https://cdn.example/a.png");
     cf_title := Some (py "Title");
     cf_description := None; cf_card_size := None;
     cf_site_name := None; cf_button_text := None; cf_og_url := None;
     cf_img_file := None |}.

(** Draws that spell [upload]. *)
Definition ex_upload_draws (attempt i : nat) : nat :=
  nth i [20; 15; 11; 14; 0; 3]%nat 0%nat.

Definition ex_csrf_request (method : pystr) (form_token header : option pystr)
    : csrf_request :=
  {| cr_method := method; cr_form_token := form_token; cr_is_json := false;
     cr_json := JsonFalsy; cr_x_csrftoken := header; cr_x_csrf_token := None |}.

(** Case analysis on the integer comparisons of a goal. *)
Ltac case_compare :=
  repeat (match goal with
          | |- context [Z.leb ?a ?b] => destruct (Z.leb_spec a b)
          | |- context [Z.ltb ?a ?b] => destruct (Z.ltb_spec a b)
          | |- context [Z.gtb ?a ?b] => rewrite (Z.gtb_ltb a b)
          end; simpl in *).

(** * Properties *)

(** ** Strings *)

Lemma startswith_prefix p s :
  startswith p s = true ↔ ∃ post, s = p ++ post.
Proof.
  revert s. induction p as [|a p IH]; intros s; simpl.
  - split; [eauto | done].
  - destruct s as [|b s].
    + split; [done | intros [post H]; discriminate].
    + rewrite andb_true_iff, IH, N.eqb_eq. split.
      * intros [-> [post ->]]. by exists post.
      * intros [post H]. injection H as -> ->. eauto.
Qed.

Lemma contains_infix sub s :
  contains sub s = true ↔ ∃ pre post, s = pre ++ sub ++ post.
Proof.
  induction s as [|b s IH]; simpl.
  - rewrite orb_false_r, startswith_prefix. split.
    + intros [post H]. by exists [], post.
    + intros ([|? ?] & post & H); [by exists post | discriminate].
  - rewrite orb_true_iff, startswith_prefix, IH. split.
    + intros [[post H] | (pre & post & ->)].
      * by exists [], post.
      * by exists (b :: pre), post.
    + intros ([|c pre] & post & H).
      * left. by exists post.
      * right. injection H as -> ->. by exists pre, post.
Qed.

Lemma lower_cp_idemp c : lower_cp (lower_cp c) = lower_cp c.
Proof.
  unfold lower_cp.
  repeat (match goal with
          | |- context [N.leb ?a ?b] => destruct (N.leb_spec a b)
          | |- context [N.eqb ?a ?b] => destruct (N.eqb_spec a b)
          end; simpl in *); try reflexivity; lia.
Qed.

Lemma py_lower_idemp s : py_lower (py_lower s) = py_lower s.
Proof.
  unfold py_lower. rewrite <- list_fmap_compose.
  apply list_fmap_ext. intros _ c _. apply lower_cp_idemp.
Qed.

Lemma signatures_lowered sig :
  sig ∈ crawler_signatures → py_lower sig = sig.
Proof.
  unfold crawler_signatures. rewrite !elem_of_cons, elem_of_nil.
  intros H. repeat destruct H as [-> | H]; try done; by vm_compute.
Qed.

(** The test of the handler is the case-insensitive containment. *)
Lemma is_bot_recognized ua :
  is_bot (py_lower ua) = true ↔ recognized_crawler ua.
Proof.
  unfold is_bot, recognized_crawler. rewrite existsb_exists. split.
  - intros (sig & Hin & Hc). exists sig. split; [by apply list_elem_of_In|].
    apply contains_infix in Hc as (pre & post & Hc).
    unfold py_lower in Hc.
    apply fmap_app_inv in Hc as (pre' & rest & -> & Hrest & ->).
    symmetry in Hrest.
    apply fmap_app_inv in Hrest as (mid & post' & -> & -> & ->).
    exists pre', mid, post'. split; [done|].
    fold (py_lower mid). rewrite py_lower_idemp. done.
  - intros (sig & Hin & pre & mid & post & -> & Hmid).
    exists sig. split; [by apply list_elem_of_In|].
    apply contains_infix. exists (py_lower pre), (py_lower post).
    unfold py_lower. rewrite !fmap_app. fold (py_lower mid).
    rewrite Hmid. by rewrite (signatures_lowered sig Hin).
Qed.

(** ** The cloaking resolver *)

Lemma visit_found unquote links slug link req :
  route slug = RedirectHandler →
  links !! slug = Some link →
  visit unquote links slug req =
    if is_bot (py_lower (default [] (req_user_agent req)))
    then render_template (py "meta.html") (meta_context req link)
    else if header_safe (dest_url link)
    then redirect (dest_url link) 302
    else with_status (Text (py "Internal Server Error")) 500.
Proof.
  intros Hroute H. unfold visit, finalize, redirect_handler. rewrite Hroute, H.
  destruct (is_bot _); [done|]. by destruct (header_safe _).
Qed.

(** What a visit to a stored slug answers once it has reached
    [redirect_handler]. *)
Lemma visit_stored_slug unquote links slug link req :
  links !! slug = Some link →
  route slug = RedirectHandler →
  (recognized_crawler (default [] (req_user_agent req)) →
     visit unquote links slug req
       = render_template (py "meta.html") (meta_context req link)
     ∧ status (visit unquote links slug req) = 200
     ∧ is_redirection (visit unquote links slug req) = false)
  ∧ (¬ recognized_crawler (default [] (req_user_agent req)) →
     visit unquote links slug req
     = if header_safe (dest_url link) then redirect (dest_url link) 302
       else with_status (Text (py "Internal Server Error")) 500).
Proof.
  intros Hlink Hroute. rewrite (visit_found _ _ _ _ _ Hroute Hlink). split.
  - intros Hbot. apply is_bot_recognized in Hbot. rewrite Hbot. done.
  - intros Hhuman.
    destruct (is_bot _) eqn:Hbot; [|done].
    apply is_bot_recognized in Hbot. done.
Qed.

(** A destination of printable ASCII goes out in the [Location] header
    as it is stored. *)
Lemma plain_destination dest :
  uri_plain dest = true →
  header_safe dest = true ∧ redirect dest 302 = Response 302 (Some (Uri dest)) RedirectPage.
Proof.
  intros Hplain. split.
  - unfold uri_plain in Hplain. destruct dest as [|c dest]; [done|].
    unfold header_safe. rewrite forallb_forall in *. intros a Ha.
    specialize (Hplain a Ha).
    apply andb_true_iff in Hplain as [Hlo%N.leb_le Hhi%N.leb_le].
    destruct (N.eqb_spec a 13), (N.eqb_spec a 10); simpl; try done; lia.
  - unfold redirect, wire_uri. by rewrite Hplain.
Qed.

(** C1.  A visit to a stored slug reaches [redirect_handler] unless the
    slug is the name of a static rule.  There a user-agent that holds a
    crawler signature, in any letter case, gets the metadata document,
    with status 200 and so never a 3xx.  Any other user-agent gets the 302
    to the stored destination, which goes out unchanged when it is
    printable ASCII, provided that the destination holds neither CR nor
    LF; when it holds one, [redirect] raises, since the [Location] header
    refuses the value, and the visit is answered 500.  [create] stores
    such a destination without complaint.  It can also draw the slug
    [upload], which the rule of [upload_page] takes, so that the stored
    link is never served. *)
Theorem visit_existing_slug :
  (∀ unquote links slug link req,
     links !! slug = Some link →
     route slug = RedirectHandler →
     (recognized_crawler (default [] (req_user_agent req)) →
        visit unquote links slug req
          = render_template (py "meta.html") (meta_context req link)
        ∧ status (visit unquote links slug req) = 200
        ∧ is_redirection (visit unquote links slug req) = false)
     ∧ (¬ recognized_crawler (default [] (req_user_agent req)) →
        header_safe (dest_url link) = true →
        visit unquote links slug req = redirect (dest_url link) 302)
     ∧ (¬ recognized_crawler (default [] (req_user_agent req)) →
        uri_plain (dest_url link) = true →
        visit unquote links slug req
        = Response 302 (Some (Uri (dest_url link))) RedirectPage)
     ∧ (¬ recognized_crawler (default [] (req_user_agent req)) →
        header_safe (dest_url link) = false →
        visit unquote links slug req
        = with_status (Text (py "Internal Server Error")) 500))
  ∧ (let made := create id id ex_draws ex_upload_req ex_crlf_form (Site ∅ ∅) in
     let answer := visit ex_unquote (site_links made.2) (py "aaaaaa")
                     (ex_request (py "/aaaaaa") (Some (py "Mozilla/5.0"))) in
     status made.1 = 200
     ∧ dest_url <$> site_links made.2 !! py "aaaaaa" = Some ex_crlf_dest
     ∧ ¬ recognized_crawler (py "Mozilla/5.0")
     ∧ answer = with_status (Text (py "Internal Server Error")) 500
     ∧ is_redirection answer = false)
  ∧ (let made := create id id ex_upload_draws ex_upload_req
                   (ex_create_form (Some (py "Title"))
                      (Some (py "https://cdn.example/a.png")) None) (Site ∅ ∅) in
     let answer := visit ex_unquote (site_links made.2) (py "upload")
                     (ex_request (py "/upload") (Some (py "Mozilla/5.0"))) in
     status made.1 = 200
     ∧ dest_url <$> site_links made.2 !! py "upload"
       = Some (py "https://example.com/landing")
     ∧ answer = render_template (py "upload.html") []
     ∧ is_redirection answer = false).
Proof.
  split; [|split].
  - intros unquote links slug link req Hlink Hroute.
    destruct (visit_stored_slug unquote links slug link req Hlink Hroute)
      as [Hbot Hhuman].
    split; [exact Hbot|]. split; [|split].
    + intros Hno Hsafe. by rewrite (Hhuman Hno), Hsafe.
    + intros Hno Hplain. destruct (plain_destination _ Hplain) as [Hsafe Hout].
      by rewrite (Hhuman Hno), Hsafe.
    + intros Hno Hsafe. by rewrite (Hhuman Hno), Hsafe.
  - assert (¬ recognized_crawler (py "Mozilla/5.0")) as Hhuman.
    { intros H. apply is_bot_recognized in H. vm_compute in H. discriminate. }
    cbv zeta. split; [vm_compute; reflexivity|]. split; [vm_compute; reflexivity|].
    split; [exact Hhuman|]. split; vm_compute; reflexivity.
  - cbv zeta. repeat split; vm_compute; reflexivity.
Qed.

Lemma template_arg_img req link :
  template_arg (py "img") (render_template (py "meta.html") (meta_context req link))
  = Some (VStr (absolute_img_url req (img_url link))).
Proof. reflexivity. Qed.

Lemma or_else_truthy o : truthy (Some (or_else o [])) = bool_decide (or_else o [] ≠ []).
Proof. by destruct o as [[|c s]|]. Qed.

Lemma startswith_slash_not_http s :
  startswith (py "/") s = true →
  startswith (py "http://") s = false ∧ startswith (py "https://") s = false.
Proof.
  destruct s as [|c s]; [intros H; vm_compute in H; discriminate|].
  change (py "/") with [47%N]. cbn [startswith]. rewrite andb_true_r.
  intros <-%N.eqb_eq. split; reflexivity.
Qed.

Lemma lstrip_id c s : startswith [c] s = false → lstrip c s = s.
Proof.
  destruct s as [|a s]; [done|]. simpl.
  rewrite andb_true_r, (N.eqb_sym c a). by intros ->.
Qed.

Lemma rstrip_snoc c s : rstrip c (s ++ [c]) = rstrip c s.
Proof. unfold rstrip. rewrite rev_unit. simpl. by rewrite N.eqb_refl. Qed.

Lemma rstrip_last c s a : a ≠ c → rstrip c (s ++ [a]) = s ++ [a].
Proof.
  intros Hne. unfold rstrip. rewrite rev_unit. simpl.
  destruct (N.eqb_spec a c); [done|].
  change (a :: rev s) with (rev [a] ++ rev s). rewrite <- rev_app_distr.
  apply rev_involutive.
Qed.

(** The site root of a request whose host does not end in a slash is the
    scheme and the host. *)
Lemma site_root_host req host a :
  req_host req = host ++ [a] → a ≠ 47%N →
  site_root req = req_scheme req ++ py "://" ++ req_host req.
Proof.
  intros Hhost Hne. unfold site_root, host_url.
  change (py "/") with [47%N]. rewrite !app_assoc, rstrip_snoc.
  rewrite Hhost, !app_assoc. by apply rstrip_last.
Qed.

(** C8, as the code has it.  For a visit of a crawler that reaches
    [redirect_handler] at a stored slug, the image URL handed to the
    metadata document is: the stored reference itself when that starts
    with [http://] or [https://]; scheme, [://], host and the reference
    when the reference begins with a slash; the site root, a slash and
    the reference for any other reference that is not empty; and the
    empty string when the stored reference is empty or NULL. *)
Theorem bot_image_url unquote links slug link req :
  links !! slug = Some link →
  route slug = RedirectHandler →
  recognized_crawler (default [] (req_user_agent req)) →
  let image_ref := or_else (img_url link) [] in
  let emitted := template_arg (py "img") (visit unquote links slug req) in
  (startswith (py "http://") image_ref = true
     ∨ startswith (py "https://") image_ref = true →
   emitted = Some (VStr image_ref))
  ∧ (startswith (py "/") image_ref = true →
     emitted = Some (VStr (req_scheme req ++ py "://" ++ req_host req ++ image_ref)))
  ∧ (startswith (py "http://") image_ref = false →
     startswith (py "https://") image_ref = false →
     startswith (py "/") image_ref = false →
     image_ref ≠ [] →
     emitted = Some (VStr (site_root req ++ py "/" ++ image_ref)))
  ∧ (image_ref = [] → emitted = Some (VStr [])).
Proof.
  intros Hlink Hroute Hbot image_ref emitted. subst emitted.
  rewrite (visit_found _ _ _ _ _ Hroute Hlink).
  apply is_bot_recognized in Hbot. rewrite Hbot, template_arg_img.
  unfold absolute_img_url. fold image_ref.
  change (truthy (Some image_ref)) with (truthy (Some (or_else (img_url link) []))).
  rewrite or_else_truthy. fold image_ref.
  split; [|split; [|split]].
  - intros Habs. assert (startswith (py "http://") image_ref
                         || startswith (py "https://") image_ref = true) as ->
      by (by apply orb_true_iff).
    simpl. by rewrite andb_false_r.
  - intros Hslash.
    destruct (startswith_slash_not_http _ Hslash) as [-> ->]. rewrite Hslash.
    simpl. rewrite andb_true_r.
    case_bool_decide as Hne; [done|].
    rewrite Hne in Hslash. discriminate.
  - intros -> -> Hslash Hne. rewrite Hslash. simpl. rewrite andb_true_r.
    rewrite bool_decide_eq_true_2 by done.
    unfold site_root. by rewrite (lstrip_id 47 image_ref Hslash).
  - intros ->. by rewrite bool_decide_eq_false_2 by (by intros H).
Qed.

Lemma bot_image_url_witness :
  template_arg (py "img")
    (visit ex_unquote {[ py "aB3xYz" := ex_link_with (Some (py "https://cdn.example/a.png")) ]}
       (py "aB3xYz") ex_bot_req)
  = Some (VStr (py "https://cdn.example/a.png"))
  ∧ template_arg (py "img")
      (visit ex_unquote {[ py "aB3xYz" := ex_link_with (Some (py "/static/uploads/a.png")) ]}
         (py "aB3xYz") ex_bot_req)
    = Some (VStr (py "https://short.example/static/uploads/a.png"))
  ∧ template_arg (py "img") (visit ex_unquote ex_links (py "aB3xYz") ex_bot_req)
    = Some (VStr (py "https://short.example/uploads/aB3xYz.png"))
  ∧ template_arg (py "img")
      (visit ex_unquote {[ py "aB3xYz" := ex_link_with None ]} (py "aB3xYz") ex_bot_req)
    = Some (VStr []).
Proof.
  assert (recognized_crawler (default [] (req_user_agent ex_bot_req))) as Hbot
    by (apply is_bot_recognized; vm_compute; reflexivity).
  assert (route (py "aB3xYz") = RedirectHandler) as Hroute by (vm_compute; reflexivity).
  split; [|split; [|split]].
  - refine (proj1 (bot_image_url ex_unquote _ (py "aB3xYz")
              (ex_link_with (Some (py "https://cdn.example/a.png"))) ex_bot_req
              _ Hroute Hbot) _).
    + vm_compute. reflexivity.
    + right. vm_compute. reflexivity.
  - refine (proj1 (proj2 (bot_image_url ex_unquote _ (py "aB3xYz")
              (ex_link_with (Some (py "/static/uploads/a.png"))) ex_bot_req
              _ Hroute Hbot)) _).
    + vm_compute. reflexivity.
    + vm_compute. reflexivity.
  - refine (proj1 (proj2 (proj2 (bot_image_url ex_unquote ex_links (py "aB3xYz")
              ex_link ex_bot_req _ Hroute Hbot))) _ _ _ _).
    + vm_compute. reflexivity.
    + vm_compute. reflexivity.
    + vm_compute. reflexivity.
    + vm_compute. reflexivity.
    + vm_compute. discriminate.
  - refine (proj2 (proj2 (proj2 (bot_image_url ex_unquote _ (py "aB3xYz")
              (ex_link_with None) ex_bot_req _ Hroute Hbot))) _).
    + vm_compute. reflexivity.
    + vm_compute. reflexivity.
Defined.

(** The claim of the specification fails at a stored reference that is
    empty, as [create] stores it for a form without image URL, or NULL:
    it starts neither with a scheme nor with a slash, and the crawler is
    handed the empty string, not the site root and a slash. *)
Lemma bot_image_url_counterexample :
  let links : gmap pystr LinkRecord := {[ py "aB3xYz" := ex_link_with (Some []) ]} in
  let image_ref := or_else (img_url (ex_link_with (Some []))) [] in
  let emitted := template_arg (py "img") (visit ex_unquote links (py "aB3xYz") ex_bot_req) in
  links !! py "aB3xYz" = Some (ex_link_with (Some []))
  ∧ recognized_crawler (default [] (req_user_agent ex_bot_req))
  ∧ startswith (py "http://") image_ref = false
  ∧ startswith (py "https://") image_ref = false
  ∧ startswith (py "/") image_ref = false
  ∧ emitted = Some (VStr [])
  ∧ emitted ≠ Some (VStr (site_root ex_bot_req ++ py "/" ++ image_ref))
  ∧ template_arg (py "img")
      (visit ex_unquote {[ py "aB3xYz" := ex_link_with None ]} (py "aB3xYz") ex_bot_req)
    = Some (VStr []).
Proof.
  cbv zeta. split; [vm_compute; reflexivity|].
  split; [apply is_bot_recognized; vm_compute; reflexivity|].
  repeat split; try (vm_compute; reflexivity). vm_compute. discriminate.
Qed.

(** A failed lookup answers 404 whatever the path is: the view returns
    the response, no [NotFound] is raised. *)
Lemma visit_unknown_slug unquote links slug req :
  route slug = RedirectHandler →
  links !! slug = None →
  visit unquote links slug req = with_status (Text (py "Link not found")) 404.
Proof.
  intros Hroute H. unfold visit, finalize, redirect_handler. by rewrite Hroute, H.
Qed.

(** What the error handler answers once it runs. *)
Lemma handle_not_found_thai unquote req :
  existsb is_thai (default (req_path req) (unquote (req_path req))) = true →
  handle_not_found unquote req = redirect (py "/upload") 302.
Proof. intros H. unfold handle_not_found. by rewrite H. Qed.

(** C3. At a visit whose slug lookup fails and whose percent-decoded path
    contains Thai letters, the answer of the code is the plain 404 of
    [redirect_handler], not the 302 to the upload page, which only the
    404 error handler gives. *)
Theorem visit_unknown_thai_slug :
  (∅ : gmap pystr LinkRecord) !! drop 1 ex_thai_path = None
  ∧ existsb is_thai (default ex_thai_path (ex_unquote ex_thai_path)) = true
  ∧ visit ex_unquote ∅ (drop 1 ex_thai_path) ex_thai_req
    = with_status (Text (py "Link not found")) 404
  ∧ visit ex_unquote ∅ (drop 1 ex_thai_path) ex_thai_req ≠ redirect (py "/upload") 302
  ∧ handle_not_found ex_unquote ex_thai_req = redirect (py "/upload") 302.
Proof.
  assert (route (drop 1 ex_thai_path) = RedirectHandler) as Hroute
    by (vm_compute; reflexivity).
  split; [done|]. split; [vm_compute; reflexivity|].
  split; [by apply visit_unknown_slug|].
  split; [rewrite visit_unknown_slug by done; discriminate|].
  apply handle_not_found_thai. vm_compute. reflexivity.
Qed.

(** ** The expiry sweep *)

Section Sweep.

Implicit Types (st : store) (rows : gmap pystr ImageRecord).

Lemma fold_remove_images rows st i :
  images (map_fold remove_row st rows) !! i
  = match rows !! i with Some _ => None | None => images st !! i end.
Proof.
  revert i.
  apply (map_fold_weak_ind (λ res rows, ∀ i,
    images res !! i = match rows !! i with Some _ => None | None => images st !! i end)).
  - intros i. by rewrite lookup_empty.
  - intros j row m res Hj IH i. simpl.
    destruct (decide (j = i)) as [->|Hne].
    + by rewrite lookup_delete_eq, lookup_insert_eq.
    + by rewrite lookup_delete_ne, lookup_insert_ne, IH.
Qed.

Lemma fold_remove_uploads_gone rows st j row :
  rows !! j = Some row →
  uploads (map_fold remove_row st rows) !! filename row = None.
Proof.
  revert j row.
  apply (map_fold_weak_ind (λ res rows, ∀ j row,
    rows !! j = Some row → uploads res !! filename row = None)).
  - intros j row. by rewrite lookup_empty.
  - intros i x m res Hi IH j row Hj. simpl.
    apply lookup_delete_None.
    destruct (decide (i = j)) as [->|Hne].
    + rewrite lookup_insert_eq in Hj. injection Hj as ->. by left.
    + rewrite lookup_insert_ne in Hj by done. right. by eapply IH.
Qed.

Lemma fold_remove_uploads_kept rows st name :
  (∀ j row, rows !! j = Some row → filename row ≠ name) →
  uploads (map_fold remove_row st rows) !! name = uploads st !! name.
Proof.
  apply (map_fold_weak_ind (λ res rows,
    (∀ j row, rows !! j = Some row → filename row ≠ name) →
    uploads res !! name = uploads st !! name)).
  - done.
  - intros i x m res Hi IH Hdiff. simpl.
    rewrite lookup_delete_ne.
    + apply IH. intros j row Hj. apply (Hdiff j).
      rewrite lookup_insert_ne; [done|]. intros ->. congruence.
    + apply (Hdiff i). by rewrite lookup_insert_eq.
Qed.

Lemma expired_rows_lookup now st i :
  filter (λ kr, is_expired now kr.2 = true) (images st) !! i
  = match images st !! i with
    | Some row => if is_expired now row then Some row else None
    | None => None
    end.
Proof.
  rewrite map_lookup_filter. destruct (images st !! i) as [row|]; simpl; [|done].
  destruct (is_expired now row) eqn:E.
  - by rewrite option_guard_True.
  - rewrite option_guard_False; [done|]. simpl. congruence.
Qed.

(** The sweep deletes exactly the expired rows. *)
Lemma cleanup_images now st i :
  images (_cleanup_expired_images now st) !! i
  = match images st !! i with
    | Some row => if is_expired now row then None else Some row
    | None => None
    end.
Proof.
  unfold _cleanup_expired_images. rewrite fold_remove_images, expired_rows_lookup.
  destruct (images st !! i) as [row|]; [|done]. by destruct (is_expired now row).
Qed.

(** It removes the file of every expired row. *)
Lemma cleanup_uploads_gone now st i row :
  images st !! i = Some row → is_expired now row = true →
  uploads (_cleanup_expired_images now st) !! filename row = None.
Proof.
  intros Hi He. unfold _cleanup_expired_images.
  apply (fold_remove_uploads_gone _ _ i). by rewrite expired_rows_lookup, Hi, He.
Qed.

(** It keeps every file that no expired row names. *)
Lemma cleanup_uploads_kept now st name :
  (∀ j row, images st !! j = Some row → is_expired now row = true →
            filename row ≠ name) →
  uploads (_cleanup_expired_images now st) !! name = uploads st !! name.
Proof.
  intros Hdiff. unfold _cleanup_expired_images.
  apply fold_remove_uploads_kept. intros j row Hj.
  rewrite expired_rows_lookup in Hj.
  destruct (images st !! j) as [row'|] eqn:Hj'; [|done].
  destruct (is_expired now row') eqn:He; [|done].
  injection Hj as <-. by eapply Hdiff.
Qed.

(** A row that never expires survives every sweep. *)
Lemma cleanup_keeps_unexpiring now st i row :
  images st !! i = Some row → expires_at row = None →
  images (_cleanup_expired_images now st) !! i = Some row.
Proof.
  intros Hi Hnone. rewrite cleanup_images, Hi.
  unfold is_expired. by rewrite Hnone.
Qed.

End Sweep.

(** ** Deletion *)

Lemma remove_row_images i row st : images (remove_row i row st) !! i = None.
Proof. apply lookup_delete_eq. Qed.

Lemma remove_row_uploads i row st : uploads (remove_row i row st) !! filename row = None.
Proof. apply lookup_delete_eq. Qed.

Lemma no_token req :
  truthy (form_delete_token req) = false →
  (req_is_json req = true → token_truthy (json_delete_token req) = false) →
  token_truthy (request_token req) = false.
Proof.
  intros Hform Hjson. unfold request_token.
  assert (token_truthy (JString <$> form_delete_token req) = false) as Hf
    by (by destruct (form_delete_token req)).
  rewrite Hf. simpl. destruct (req_is_json req); [by apply Hjson | done].
Qed.

(** A delete request with a token first sweeps the expired records, at
    the clock reading [now_sweep], and reads the clock again, [now], for
    its own expiry test.  No record for the id, or a record already
    expired at the sweep (which removed it and its file): NotFound.  A
    record that expires between the two readings: the file and the record
    are deleted and success is reported, whatever the token.  A live
    record and a token different from [delete_token]: Forbidden, the
    record and its file are left as they were.  A live record and the
    right token: file and record deleted, success. *)
Lemma delete_with_token_cases now_sweep now image_id req st :
  token_truthy (request_token req) = true →
  let swept := _cleanup_expired_images now_sweep st in
  let result := api_delete_image now_sweep now image_id req st in
  match images st !! image_id with
  | None => result = (json_error (py "Not found") 404, swept)
  | Some row =>
      if is_expired now_sweep row then
        result = (json_error (py "Not found") 404, swept)
        ∧ images result.2 !! image_id = None
        ∧ uploads result.2 !! filename row = None
      else if is_expired now row then
        result = (json_ok, remove_row image_id row swept)
        ∧ images result.2 !! image_id = None
        ∧ uploads result.2 !! filename row = None
      else if token_differs (request_token req) (delete_token row) then
        result = (json_error (py "Invalid delete_token") 403, swept)
        ∧ images result.2 !! image_id = Some row
        ∧ ((∀ j other, images st !! j = Some other →
                       is_expired now_sweep other = true →
                       filename other ≠ filename row) →
           uploads result.2 !! filename row = uploads st !! filename row)
      else
        result = (json_ok, remove_row image_id row swept)
        ∧ images result.2 !! image_id = None
        ∧ uploads result.2 !! filename row = None
  end.
Proof.
  intros Htoken swept result.
  assert (images swept !! image_id
          = match images st !! image_id with
            | Some row => if is_expired now_sweep row then None else Some row
            | None => None
            end) as Hswept by apply cleanup_images.
  subst result. unfold api_delete_image. fold swept. rewrite Htoken. simpl.
  destruct (images st !! image_id) as [row|] eqn:Hrow.
  - destruct (is_expired now_sweep row) eqn:He0; rewrite Hswept.
    + split; [done|]. split; [done|]. simpl.
      by apply (cleanup_uploads_gone now_sweep st image_id).
    + destruct (is_expired now row) eqn:He1.
      * split; [done|]. simpl. split; apply lookup_delete_eq.
      * destruct (token_differs _ _).
        -- split; [done|]. split; [done|]. simpl. apply cleanup_uploads_kept.
        -- split; [done|]. simpl. split; apply lookup_delete_eq.
  - by rewrite Hswept.
Qed.

(** C2.  The handler has a branch that deletes an expired record and
    reports success whatever the token is, but it opens with the sweep,
    which removes every expired record first: a record that is expired
    when the request arrives is gone before the handler looks for it, and
    the answer is NotFound, not success.  The branch is taken only by a
    record that expires between the clock reading of the sweep and the
    one of the handler.  The other cases are as the specification has
    them: no record, NotFound; a live record and another token,
    Forbidden, the record kept; a live record and its token, success, the
    record and its file deleted. *)
Theorem delete_expired_record :
  (∀ now_sweep now image_id req st row,
     token_truthy (request_token req) = true →
     images st !! image_id = Some row →
     is_expired now_sweep row = true →
     let result := api_delete_image now_sweep now image_id req st in
     result.1 = json_error (py "Not found") 404
     ∧ result.1 ≠ json_ok
     ∧ images result.2 !! image_id = None
     ∧ uploads result.2 !! filename row = None)
  ∧ (∀ now_sweep now image_id req st row,
       token_truthy (request_token req) = true →
       images st !! image_id = Some row →
       is_expired now_sweep row = false →
       let result := api_delete_image now_sweep now image_id req st in
       if is_expired now row then
         result.1 = json_ok
         ∧ images result.2 !! image_id = None
         ∧ uploads result.2 !! filename row = None
       else if token_differs (request_token req) (delete_token row) then
         result.1 = json_error (py "Invalid delete_token") 403
         ∧ images result.2 !! image_id = Some row
       else
         result.1 = json_ok
         ∧ images result.2 !! image_id = None
         ∧ uploads result.2 !! filename row = None)
  ∧ (∀ now_sweep now image_id req st,
       token_truthy (request_token req) = true →
       images st !! image_id = None →
       (api_delete_image now_sweep now image_id req st).1
       = json_error (py "Not found") 404)
  ∧ (images (ex_store (Some 160)) !! py "0a1b" = Some (ex_row (Some 160))
     ∧ is_expired 200 (ex_row (Some 160)) = true
     ∧ token_truthy (request_token (ex_delete_req (Some (py "secret")))) = true
     ∧ (api_delete_image 200 200 (py "0a1b") (ex_delete_req (Some (py "secret")))
          (ex_store (Some 160))).1
       = json_error (py "Not found") 404
     ∧ (api_delete_image 100 200 (py "0a1b") (ex_delete_req (Some (py "wrong")))
          (ex_store (Some 160))).1
       = json_ok).
Proof.
  split; [|split; [|split]].
  - intros now_sweep now image_id req st row Htoken Hrow Hexpired result.
    pose proof (delete_with_token_cases now_sweep now image_id req st Htoken) as H.
    cbv zeta in H. rewrite Hrow, Hexpired in H. destruct H as (Hres & Hgone & Hfile).
    subst result. rewrite Hres in *. done.
  - intros now_sweep now image_id req st row Htoken Hrow Hlive result.
    pose proof (delete_with_token_cases now_sweep now image_id req st Htoken) as H.
    cbv zeta in H. rewrite Hrow, Hlive in H. subst result.
    destruct (is_expired now row).
    + destruct H as (Hres & Hgone & Hfile). by rewrite Hres in *.
    + destruct (token_differs _ _).
      * destruct H as (Hres & Hkept & _). by rewrite Hres in *.
      * destruct H as (Hres & Hgone & Hfile). by rewrite Hres in *.
  - intros now_sweep now image_id req st Htoken Hrow.
    pose proof (delete_with_token_cases now_sweep now image_id req st Htoken) as H.
    cbv zeta in H. rewrite Hrow in H. by rewrite H.
  - repeat split; vm_compute; reflexivity.
Qed.

(** C10, as the code has it.  A delete request without a token (absent
    or empty in the form and, for a JSON request, in the body) is answered
    400 [Missing delete_token] before the record is looked up, and the
    delete step proper removes nothing; the store left behind is the one
    of the initial sweep, which has removed the expired records and their
    files, the targeted record included when it is expired, and kept every
    other record. *)
Theorem delete_without_token now_sweep now image_id req st :
  truthy (form_delete_token req) = false →
  (req_is_json req = true → token_truthy (json_delete_token req) = false) →
  let result := api_delete_image now_sweep now image_id req st in
  result = (json_error (py "Missing delete_token") 400,
            _cleanup_expired_images now_sweep st)
  ∧ (∀ i row, images st !! i = Some row →
       images result.2 !! i = if is_expired now_sweep row then None else Some row)
  ∧ (∀ i row, images st !! i = Some row → is_expired now_sweep row = true →
       uploads result.2 !! filename row = None)
  ∧ (∀ name,
       (∀ j row, images st !! j = Some row → is_expired now_sweep row = true →
                 filename row ≠ name) →
       uploads result.2 !! name = uploads st !! name).
Proof.
  intros Hform Hjson result.
  assert (result = (json_error (py "Missing delete_token") 400,
                    _cleanup_expired_images now_sweep st)) as ->.
  { subst result. unfold api_delete_image. by rewrite (no_token req Hform Hjson). }
  split; [done|]. simpl. split; [|split].
  - intros i row Hrow. by rewrite cleanup_images, Hrow.
  - intros i row. apply cleanup_uploads_gone.
  - intros name. apply cleanup_uploads_kept.
Qed.

Lemma delete_without_token_witness :
  api_delete_image 100 120 (py "0a1b") (ex_delete_req None) (ex_store (Some 160))
  = (json_error (py "Missing delete_token") 400, ex_store (Some 160))
  ∧ api_delete_image 100 120 (py "0a1b") (ex_delete_req (Some [])) (ex_store None)
    = (json_error (py "Missing delete_token") 400, ex_store None).
Proof.
  split.
  - pose proof (delete_without_token 100 120 (py "0a1b") (ex_delete_req None)
                  (ex_store (Some 160)) ltac:(vm_compute; reflexivity)
                  ltac:(vm_compute; discriminate)) as [H _].
    vm_compute in H. vm_compute. exact H.
  - pose proof (delete_without_token 100 120 (py "0a1b") (ex_delete_req (Some []))
                  (ex_store None) ltac:(vm_compute; reflexivity)
                  ltac:(vm_compute; discriminate)) as [H _].
    vm_compute in H. vm_compute. exact H.
Defined.

(** The claim of the specification fails at an expired target: the
    request carries no token and is answered 400, yet the record and its
    file, present before the call, are gone after it. *)
Lemma delete_without_token_counterexample :
  images (ex_store (Some 160)) !! py "0a1b" = Some (ex_row (Some 160))
  ∧ uploads (ex_store (Some 160)) !! py "0a1b.png" = Some ex_png
  ∧ is_expired 200 (ex_row (Some 160)) = true
  ∧ token_truthy (request_token (ex_delete_req None)) = false
  ∧ (api_delete_image 200 200 (py "0a1b") (ex_delete_req None)
       (ex_store (Some 160))).1
    = json_error (py "Missing delete_token") 400
  ∧ images (api_delete_image 200 200 (py "0a1b") (ex_delete_req None)
              (ex_store (Some 160))).2 !! py "0a1b" = None
  ∧ uploads (api_delete_image 200 200 (py "0a1b") (ex_delete_req None)
               (ex_store (Some 160))).2 !! py "0a1b.png" = None.
Proof. repeat split; vm_compute; reflexivity. Qed.

(** ** Creation of image records *)

Lemma insert_image_rows i row st st' :
  insert_image i row st = Some st' →
  images st' = <[i := row]> (images st) ∧ uploads st' = uploads st.
Proof.
  unfold insert_image. destruct (images st !! i); [done|].
  by intros [= <-].
Qed.

Lemma save_uploaded_images secure_filename pil req file_storage image_id offset_y st :
  images (_save_uploaded_image_for_image_host secure_filename pil req
            file_storage image_id offset_y st).2 = images st.
Proof.
  unfold _save_uploaded_image_for_image_host.
  repeat case_match; done.
Qed.

(** Every row that [api_create_grid] leaves in the table was there after
    the sweep, or is the new row, which never expires. *)
Lemma grid_rows secure_filename strip pil now_sweep now_created image_id token req form st i row :
  images (api_create_grid secure_filename strip pil now_sweep now_created
            image_id token req form st).2 !! i = Some row →
  images (_cleanup_expired_images now_sweep st) !! i = Some row
  ∨ (i = image_id ∧ expires_at row = None ∧ delete_token row = token).
Proof.
  unfold api_create_grid.
  repeat case_match; simpl; try (by left).
  all: match goal with H : insert_image _ _ _ = Some _ |- _ =>
         apply insert_image_rows in H as [-> _] end.
  all: simpl; destruct (decide (image_id = i)) as [->|Hne];
    [ rewrite lookup_insert_eq; intros [= <-]; by right
    | rewrite lookup_insert_ne by done; by left ].
Qed.

(** A successful [api_create_grid] has inserted its row. *)
Lemma grid_inserted secure_filename strip pil now_sweep now_created image_id token req form st :
  status (api_create_grid secure_filename strip pil now_sweep now_created
            image_id token req form st).1 = 200 →
  ∃ row, images (api_create_grid secure_filename strip pil now_sweep now_created
                   image_id token req form st).2 !! image_id = Some row
         ∧ expires_at row = None.
Proof.
  unfold api_create_grid.
  repeat case_match; simpl; try discriminate.
  all: match goal with H : insert_image _ _ _ = Some _ |- _ =>
         apply insert_image_rows in H as [-> _] end.
  all: intros _; eexists; rewrite lookup_insert_eq; done.
Qed.

(** Every row that [api_upload] leaves in the table was there after the
    sweep, or is the new row, whose expiry is unset or a positive number
    of minutes after the clock reading. *)
Lemma upload_rows secure_filename parse_int strip pil now_sweep now_expiry now_created
    image_id token req form st i row :
  images (api_upload secure_filename parse_int strip pil now_sweep now_expiry
            now_created image_id token req form st).2 !! i = Some row →
  images (_cleanup_expired_images now_sweep st) !! i = Some row
  ∨ (i = image_id
     ∧ (expires_at row = None
        ∨ ∃ minutes, 0 < minutes ∧ expires_at row = Some (now_expiry + minutes * 60))).
Proof.
  unfold api_upload.
  repeat case_match; simpl; try (by left).
  all: match goal with
       | H : _save_uploaded_image_for_image_host ?a ?b ?c ?d ?e ?f ?g = (_, ?s) |- _ =>
           pose proof (save_uploaded_images a b c d e f g) as Himg;
           rewrite H in Himg; simpl in Himg
       end; try (rewrite Himg; by left).
  all: match goal with H : insert_image _ _ _ = Some _ |- _ =>
         apply insert_image_rows in H as [-> _] end.
  all: rewrite Himg; destruct (decide (image_id = i)) as [->|Hne];
    [| rewrite lookup_insert_ne by done; by left ].
  all: rewrite lookup_insert_eq; intros [= <-]; right; split; [done|]; simpl.
  all: match goal with H : upload_expiry _ _ _ = Some _ |- _ =>
         unfold upload_expiry in H; repeat case_match; simplify_eq end.
  all: first [ by left | right; eexists; split; [|done]; lia ].
Qed.

(** C9. A row inserted by the grid operation has no expiry; a row
    without expiry is never selected by the sweep, survives it, and is
    deleted by [api_delete_image] only on the right token, never on the
    expiry branch; and a row inserted by the upload operation is the only
    one that can carry a finite expiry. *)
Theorem grid_records_never_expire secure_filename parse_int strip pil
    now_sweep now_created image_id token req form st :
  let grid := api_create_grid secure_filename strip pil now_sweep now_created
                image_id token req form st in
  (∀ i row, images grid.2 !! i = Some row →
     images (_cleanup_expired_images now_sweep st) !! i = Some row
     ∨ (i = image_id ∧ expires_at row = None ∧ delete_token row = token))
  ∧ (status grid.1 = 200 →
     ∃ row, images grid.2 !! image_id = Some row ∧ expires_at row = None)
  ∧ (∀ st' i row, images st' !! i = Some row → expires_at row = None →
     ∀ now now' req',
       is_expired now row = false
       ∧ images (_cleanup_expired_images now st') !! i = Some row
       ∧ ((api_delete_image now now' i req' st').1 = json_ok →
          token_differs (request_token req') (delete_token row) = false))
  ∧ (∀ now_expiry upload i row,
       images (api_upload secure_filename parse_int strip pil now_sweep now_expiry
                 now_created image_id token req upload st).2 !! i = Some row →
       images (_cleanup_expired_images now_sweep st) !! i = Some row
       ∨ (i = image_id
          ∧ (expires_at row = None
             ∨ ∃ minutes, 0 < minutes
                          ∧ expires_at row = Some (now_expiry + minutes * 60)))).
Proof.
  intros grid. split; [|split; [|split]].
  - intros i row. apply grid_rows.
  - apply grid_inserted.
  - intros st' i row Hrow Hnone now now' req'.
    assert (∀ t, is_expired t row = false) as Hlive
      by (intros t; unfold is_expired; by rewrite Hnone).
    split; [done|]. split; [by apply cleanup_keeps_unexpiring|].
    unfold api_delete_image.
    rewrite (cleanup_keeps_unexpiring now st' i row Hrow Hnone), Hlive.
    destruct (token_truthy (request_token req')); simpl; [|discriminate].
    destruct (token_differs _ _); [discriminate | done].
  - intros now_expiry upload i row. apply upload_rows.
Qed.

Lemma grid_records_never_expire_witness :
  status (api_create_grid id id (Some ex_pil) 100 100 (py "77aa") (py "tok")
            ex_upload_req (ex_grid_form 5 (Some (py "+9"))) (ex_store (Some 160))).1
  = 200
  ∧ ∃ row,
      images (api_create_grid id id (Some ex_pil) 100 100 (py "77aa") (py "tok")
                ex_upload_req (ex_grid_form 5 (Some (py "+9")))
                (ex_store (Some 160))).2 !! py "77aa" = Some row
      ∧ expires_at row = None.
Proof.
  assert (status (api_create_grid id id (Some ex_pil) 100 100 (py "77aa") (py "tok")
            ex_upload_req (ex_grid_form 5 (Some (py "+9")))
            (ex_store (Some 160))).1 = 200) as Hok by (vm_compute; reflexivity).
  split; [exact Hok|].
  exact (proj1 (proj2 (grid_records_never_expire id ex_parse_int id (Some ex_pil)
                         100 100 (py "77aa") (py "tok") ex_upload_req
                         (ex_grid_form 5 (Some (py "+9"))) (ex_store (Some 160))))
           Hok).
Defined.

(** ** Card normalisation *)

(** C6. The card of a 400 by 400 source is the source scaled to 628 by
    628 and pasted at [(286, 0)] on a black canvas of 1200 by 628: the
    output is 1200 by 628, the pasted image covers the columns 286 to 913
    and all the rows, which leaves 286 black columns on either side. *)
Theorem square_400_card data m offset_y :
  let src := Decoded data 400 400 m in
  let out := Paste (New 1200 628 (0, 0, 0)) (Resize src 628 628) 286 0 in
  card src offset_y = Some out
  ∧ size out = (1200, 628)
  ∧ size (Resize src 628 628) = (628, 628)
  ∧ pastes out = [(Resize src 628 628, 286, 0)]
  ∧ 1200 - (286 + 628) = 286
  ∧ (∀ x y, pasted_over out x y = true ↔ (286 <= x < 286 + 628 ∧ 0 <= y < 628)).
Proof.
  intros src out. split; [vm_compute; reflexivity|].
  repeat (split; [reflexivity|]).
  intros x y. subst out src. simpl. rewrite orb_false_r.
  rewrite !andb_true_iff, !Z.leb_le, !Z.ltb_lt. lia.
Qed.

(** The same through the whole [try] block: a file that decodes to 400 by
    400 is replaced by the encoding of that card. *)
Lemma square_400_normalize p data name m offset_y :
  pil_open p data = Some (400, 400, m) →
  normalize_card p data name offset_y
  = pil_save p (Paste (New 1200 628 (0, 0, 0))
                  (Resize (Decoded data 400 400 m) 628 628) 286 0) name.
Proof.
  intros Hopen. unfold normalize_card. rewrite Hopen.
  vm_compute. reflexivity.
Qed.

(** ** The grid *)

Lemma draw_overlay_pastes p canvas text grid_w grid_h :
  pastes (default canvas (draw_overlay p canvas text grid_w grid_h)) = pastes canvas.
Proof.
  unfold draw_overlay. destruct (overlay_font p 120) as [f|]; [|done]. simpl.
  by destruct (pil_textbbox p text f) as [[[[b0 b1] b2] b3]|].
Qed.

Lemma draw_overlay_pasted_over p canvas text grid_w grid_h x y :
  pasted_over (default canvas (draw_overlay p canvas text grid_w grid_h)) x y
  = pasted_over canvas x y.
Proof.
  unfold draw_overlay. destruct (overlay_font p 120) as [f|]; [|done]. simpl.
  by destruct (pil_textbbox p text f) as [[[[b0 b1] b2] b3]|].
Qed.

Lemma draw_overlay_size p canvas text grid_w grid_h :
  size (default canvas (draw_overlay p canvas text grid_w grid_h)) = size canvas.
Proof.
  unfold draw_overlay. destruct (overlay_font p 120) as [f|]; [|done]. simpl.
  by destruct (pil_textbbox p text f) as [[[[b0 b1] b2] b3]|].
Qed.

(** The canvas of five images before the overlay. *)
Lemma grid_of_five_base p i0 i1 i2 i3 i4 :
  _create_grid_image (Some p) [i0; i1; i2; i3; i4] None (1200, 628)
  = Ok (Paste (Paste (Paste (Paste (Paste (New 1200 628 (255, 255, 255))
          (Resize i0 400 314) 0 0) (Resize i1 400 314) 400 0)
          (Resize i2 400 314) 800 0) (Resize i3 400 314) 400 314)
          (Resize i4 400 314) 800 314).
Proof. reflexivity. Qed.

(** C7. A grid of exactly five images has cells of [1200 div 3] by
    [628 div 2] pixels, pastes the images 0, 1, 2 at the origins of the
    columns 0, 1, 2 of row 0 and the images 3, 4 at the origins of the
    columns 1, 2 of row 1, and pastes nothing over the cell of row 1 and
    column 0, which keeps the white background. *)
Theorem grid_of_five p i0 i1 i2 i3 i4 overlay_text :
  let cell_w := 1200 `div` 3 in
  let cell_h := 628 `div` 2 in
  ∃ canvas,
    _create_grid_image (Some p) [i0; i1; i2; i3; i4] overlay_text (1200, 628)
    = Ok canvas
    ∧ size canvas = (1200, 628)
    ∧ pastes canvas
      = [ (Resize i0 cell_w cell_h, 0 * cell_w, 0 * cell_h);
          (Resize i1 cell_w cell_h, 1 * cell_w, 0 * cell_h);
          (Resize i2 cell_w cell_h, 2 * cell_w, 0 * cell_h);
          (Resize i3 cell_w cell_h, 1 * cell_w, 1 * cell_h);
          (Resize i4 cell_w cell_h, 2 * cell_w, 1 * cell_h) ]
    ∧ (∀ x y, 0 * cell_w <= x < 1 * cell_w → 1 * cell_h <= y < 2 * cell_h →
         pasted_over canvas x y = false)
    ∧ (overlay_text = None →
         canvas = Paste (Paste (Paste (Paste (Paste (New 1200 628 (255, 255, 255))
                    (Resize i0 400 314) 0 0) (Resize i1 400 314) 400 0)
                    (Resize i2 400 314) 800 0) (Resize i3 400 314) 400 314)
                    (Resize i4 400 314) 800 314).
Proof.
  intros cell_w cell_h.
  set (base := Paste (Paste (Paste (Paste (Paste (New 1200 628 (255, 255, 255))
          (Resize i0 400 314) 0 0) (Resize i1 400 314) 400 0)
          (Resize i2 400 314) 800 0) (Resize i3 400 314) 400 314)
          (Resize i4 400 314) 800 314).
  assert (∀ x y, 0 <= x < 400 → 314 <= y < 628 → pasted_over base x y = false)
    as Hfree.
  { intros x y Hx Hy. subst base. simpl. case_compare; try reflexivity; lia. }
  assert (_create_grid_image (Some p) [i0; i1; i2; i3; i4] overlay_text (1200, 628)
          = Ok (if truthy overlay_text
                then default base (draw_overlay p base (or_else overlay_text []) 1200 628)
                else base)) as Hgrid.
  { unfold _create_grid_image. simpl. by destruct (truthy overlay_text). }
  eexists. split; [exact Hgrid|].
  destruct (truthy overlay_text) eqn:Ht.
  - rewrite draw_overlay_size, draw_overlay_pastes.
    split; [done|]. split; [done|]. split.
    + intros x y Hx Hy. rewrite draw_overlay_pasted_over. by apply Hfree.
    + intros ->. discriminate.
  - split; [done|]. split; [done|]. split; [exact Hfree | done].
Qed.

Lemma grid_of_five_witness :
  ∃ canvas,
    _create_grid_image (Some ex_pil) ex_tiles (Some (py "+9")) (1200, 628) = Ok canvas
    ∧ pasted_over canvas 10 400 = false
    ∧ pasted_over canvas 410 400 = true.
Proof.
  destruct (grid_of_five ex_pil (Decoded [1]%N 640 480 RGB) (Decoded [2]%N 300 300 RGB)
              (Decoded [3]%N 1024 768 RGB) (Decoded [4]%N 50 900 RGB)
              (Decoded [5]%N 1200 628 RGB) (Some (py "+9")))
    as (canvas & Hgrid & _ & _ & Hfree & _).
  exists canvas. split; [exact Hgrid|]. split.
  - apply Hfree; vm_compute; split; congruence.
  - vm_compute in Hgrid. injection Hgrid as <-. vm_compute. reflexivity.
Defined.

(** ** Binary64 results stay finite *)




















(** ** Binary64 results that are exact *)










(** *** Halves of integers *)











(** ** The landscape crop *)

Lemma crop_height_spec w h :
  crop_height w h = (t ← scaled_height w; Some (Z.min h t)).
Proof.
  unfold crop_height. destruct (scaled_height w) as [t|]; [|done].
  simpl. f_equal. destruct (Z.gtb_spec t h); lia.
Qed.

Lemma crop_height_le w h crop_h : crop_height w h = Some crop_h → crop_h <= h.
Proof.
  rewrite crop_height_spec. destruct (scaled_height w); [|done].
  intros [= <-]. lia.
Qed.











(** The window on a 1600 by 1000 source (crop height 837): centred
    without an offset, moved up by a positive and down by a negative one,
    clamped at both ends, and centred again for an offset that is too
    large for a float, where the inner [try] gives up. *)
Example crop_top_offsets :
  crop_top 1000 837 None = 81
  ∧ crop_top 1000 837 (Some 0) = 81
  ∧ crop_top 1000 837 (Some 50) = 31
  ∧ crop_top 1000 837 (Some 200) = 0
  ∧ crop_top 1000 837 (Some (-50)) = 131
  ∧ crop_top 1000 837 (Some (-200)) = 163
  ∧ crop_top 1000 837 (Some (2 ^ 1024)) = 81.
Proof. repeat split; vm_compute; reflexivity. Qed.

(** A source wider than 1.91 to 1 keeps its whole height. *)
Example crop_wide :
  scaled_height 2000 = Some 1047
  ∧ crop_height 2000 800 = Some 800
  ∧ card (Decoded [20; 8]%N 2000 800 RGB) None
    = Some (Resize (Crop (Decoded [20; 8]%N 2000 800 RGB) 0 0 2000 800) 1200 628).
Proof. repeat split; vm_compute; reflexivity. Qed.

(** ** Failures of the image transforms *)

(** The file that an upload leaves on disk: the card when the [try] block
    went through, what [save] left when it failed over the open file, and
    the uploaded bytes otherwise. *)
Lemma save_uploaded_valid secure_filename pil req file_storage image_id offset_y st :
  valid_upload secure_filename file_storage = true →
  let saved_name :=
    image_id ++ py_lower (splitext (secure_filename
                            (or_else (fs_filename file_storage) []))).2 in
  let kept :=
    match pil with
    | Some p => file_after (fs_data file_storage)
                  (normalize_card p (fs_data file_storage) saved_name offset_y)
    | None => fs_data file_storage
    end in
  let result := _save_uploaded_image_for_image_host secure_filename pil req
                  file_storage image_id offset_y st in
  result.1 = Ok (saved_name, url_for_static req saved_name,
                 url_for_image_view req image_id)
  ∧ images result.2 = images st
  ∧ uploads result.2 = <[saved_name := kept]> (uploads st).
Proof.
  unfold valid_upload. rewrite !andb_true_iff. intros [[[Hname Hallowed] Hct] Himage].
  unfold _save_uploaded_image_for_image_host.
  rewrite Hname, Hallowed, Hct, Himage. simpl.
  destruct pil as [p|]; [|done].
  destruct (normalize_card p _ _ _); simpl; [| |done].
  all: split; [done|]; split; [done|]; apply insert_insert_eq.
Qed.

Lemma paste_cells_total canvas num_images cols cell_w cell_h idx image_files :
  0 < cell_w → 0 < cell_h →
  ∃ c, paste_cells canvas num_images cols cell_w cell_h idx image_files = Some c
       ∧ size c = size canvas.
Proof.
  intros Hw Hh. revert canvas idx.
  induction image_files as [|img rest IH]; intros canvas idx; simpl.
  - by exists canvas.
  - unfold resize.
    destruct (Z.ltb_spec 0 cell_w); [|lia]. destruct (Z.ltb_spec 0 cell_h); [|lia].
    simpl. destruct (cell_of num_images cols idx) as [col row].
    destruct (IH (Paste canvas (Resize img cell_w cell_h) (col * cell_w) (row * cell_h))
                 (idx + 1)) as (c & Hc & Hsize).
    exists c. by split.
Qed.

Lemma layout_cells num_images :
  0 < 1200 `div` (layout num_images).1 ∧ 0 < 628 `div` (layout num_images).2.
Proof. unfold layout. repeat case_match; simpl; split; reflexivity. Qed.

(** The grid with an overlay is the grid without it, drawn over when the
    overlay block went through. *)
Lemma grid_with_overlay p image_files overlay_text :
  (2 <= length image_files)%nat →
  truthy (Some overlay_text) = true →
  ∃ base,
    _create_grid_image (Some p) image_files None (1200, 628) = Ok base
    ∧ size base = (1200, 628)
    ∧ _create_grid_image (Some p) image_files (Some overlay_text) (1200, 628)
      = Ok (default base (draw_overlay p base overlay_text 1200 628)).
Proof.
  intros Hlen Htext. unfold _create_grid_image.
  destruct (Z.ltb_spec (Z.of_nat (length image_files)) 2); [lia|].
  destruct (Z.of_nat (length image_files) >? 5);
  match goal with
  | |- context [layout ?n] =>
      destruct (layout_cells n) as [Hw Hh]; destruct (layout n) as [cols rows]
  end; simpl in Hw, Hh;
  match goal with
  | |- context [paste_cells ?c ?n ?cols ?w ?h ?i ?l] =>
      destruct (paste_cells_total c n cols w h i l Hw Hh) as (base & -> & Hsize)
  end;
  exists base; rewrite Htext; simpl;
  (split; [done|]); (split; [exact Hsize|]);
  by destruct overlay_text.
Qed.

Lemma upload_succeeds secure_filename parse_int strip pil now_sweep now_expiry
    now_created image_id token req form file_storage expires st :
  up_file form = Some file_storage →
  truthy (fs_filename file_storage) = true →
  valid_upload secure_filename file_storage = true →
  upload_expiry parse_int now_expiry (up_expiry_minutes form) = Some expires →
  from_option sqlite_integer true expires = true →
  images (_cleanup_expired_images now_sweep st) !! image_id = None →
  let saved_name :=
    image_id ++ py_lower (splitext (secure_filename
                            (or_else (fs_filename file_storage) []))).2 in
  let offset_y := upload_offset parse_int (up_offset_y form) in
  let kept :=
    match pil with
    | Some p => file_after (fs_data file_storage)
                  (normalize_card p (fs_data file_storage) saved_name offset_y)
    | None => fs_data file_storage
    end in
  let result := api_upload secure_filename parse_int strip pil now_sweep now_expiry
                  now_created image_id token req form st in
  status result.1 = 200
  ∧ (∃ row, images result.2 !! image_id = Some row
            ∧ filename row = saved_name ∧ expires_at row = expires
            ∧ delete_token row = token)
  ∧ uploads result.2 !! saved_name = Some kept.
Proof.
  intros Hfile Hname Hvalid Hexpiry Hfits Hfresh saved_name offset_y kept result.
  subst result. unfold api_upload. rewrite Hfile, Hname, Hexpiry. simpl.
  destruct (save_uploaded_valid secure_filename pil req file_storage image_id
              offset_y (_cleanup_expired_images now_sweep st) Hvalid)
    as (Hres & Himages & Huploads).
  fold saved_name in Hres, Huploads. fold offset_y.
  destruct (_save_uploaded_image_for_image_host _ _ _ _ _ _ _) as [res st1].
  simpl in Hres, Himages, Huploads. subst res. rewrite Hfits. simpl.
  unfold insert_image. rewrite Himages, Hfresh. simpl.
  split; [done|]. split.
  - eexists. rewrite lookup_insert_eq. done.
  - rewrite Huploads. apply lookup_insert_eq.
Qed.

(** C4.  The handlers keep a failure of an image transform from failing
    the request.  An upload that passes the validation, whose expiry
    SQLite can store and that draws a fresh id, is answered 200 and
    recorded whatever Pillow did, and a grid of at least two images with
    an overlay text is produced whatever happens in the overlay block,
    equal to the grid without overlay when that block failed.  But the
    uploaded file is retained only as long as the failure comes before
    [save] opens it: [save] writes over the uploaded file, so that a
    failure of the encoder leaves the file with what was written until
    then.  A landscape RGBA image uploaded under a [.jpg] name is
    answered 200 and is stored as an empty file. *)
Theorem transform_failures_not_fatal :
  (∀ secure_filename parse_int strip p now_sweep now_expiry now_created
     image_id token req form file_storage expires st,
     up_file form = Some file_storage →
     truthy (fs_filename file_storage) = true →
     valid_upload secure_filename file_storage = true →
     upload_expiry parse_int now_expiry (up_expiry_minutes form) = Some expires →
     from_option sqlite_integer true expires = true →
     images (_cleanup_expired_images now_sweep st) !! image_id = None →
     let saved_name :=
       image_id ++ py_lower (splitext (secure_filename
                               (or_else (fs_filename file_storage) []))).2 in
     let transform :=
       normalize_card p (fs_data file_storage) saved_name
         (upload_offset parse_int (up_offset_y form)) in
     let result := api_upload secure_filename parse_int strip (Some p) now_sweep
                     now_expiry now_created image_id token req form st in
     status result.1 = 200
     ∧ (∃ row, images result.2 !! image_id = Some row ∧ filename row = saved_name)
     ∧ uploads result.2 !! saved_name
       = Some (match transform with
               | Saved card_bytes => card_bytes
               | Broken partial => partial
               | Untouched => fs_data file_storage
               end))
  ∧ (∀ p image_files overlay_text,
       (2 <= length image_files)%nat →
       truthy (Some overlay_text) = true →
       ∃ base canvas,
         _create_grid_image (Some p) image_files None (1200, 628) = Ok base
         ∧ _create_grid_image (Some p) image_files (Some overlay_text) (1200, 628)
           = Ok canvas
         ∧ size canvas = (1200, 628)
         ∧ (draw_overlay p base overlay_text 1200 628 = None → canvas = base))
  ∧ (let result := api_upload id ex_parse_int id (Some ex_jpeg_pil) 100 100 100
                     (py "77aa") (py "tok") ex_upload_req ex_rgba_form
                     (Store ∅ ∅) in
     card (Decoded ex_rgba_png 1600 1000 RGBA) None
     = Some (Resize (Crop (Decoded ex_rgba_png 1600 1000 RGBA) 0 81 1600 918) 1200 628)
     ∧ normalize_card ex_jpeg_pil ex_rgba_png (py "77aa.jpg") None = Broken []
     ∧ status result.1 = 200
     ∧ uploads result.2 !! py "77aa.jpg" = Some []
     ∧ uploads result.2 !! py "77aa.jpg" ≠ Some ex_rgba_png).
Proof.
  split; [|split].
  - intros secure_filename parse_int strip p now_sweep now_expiry now_created
      image_id token req form file_storage expires st
      Hfile Hname Hvalid Hexpiry Hfits Hfresh saved_name transform result.
    destruct (upload_succeeds secure_filename parse_int strip (Some p) now_sweep
                now_expiry now_created image_id token req form file_storage
                expires st Hfile Hname Hvalid Hexpiry Hfits Hfresh)
      as (Hok & (row & Hrow & Hfilename & _) & Hkept).
    split; [exact Hok|]. split; [by exists row|].
    fold saved_name in Hkept. subst result. rewrite Hkept. fold saved_name.
    fold transform. by destruct transform.
  - intros p image_files overlay_text Hlen Htext.
    destruct (grid_with_overlay p image_files overlay_text Hlen Htext)
      as (base & Hbase & Hsize & Hgrid).
    exists base, (default base (draw_overlay p base overlay_text 1200 628)).
    split; [exact Hbase|]. split; [exact Hgrid|].
    split; [by rewrite draw_overlay_size|].
    by intros ->.
  - cbv zeta. repeat split; try (vm_compute; reflexivity).
    vm_compute. discriminate.
Qed.

(** * Further properties *)

(** ** File names *)

Lemma rfind_from_spec c s i last :
  ((c ∉ s) ∧ rfind_from c s i last = last)
  ∨ (∃ pre post, s = pre ++ c :: post ∧ (c ∉ post)
                 ∧ rfind_from c s i last = i + Z.of_nat (length pre)).
Proof.
  revert i last. induction s as [|a s IH]; intros i last; simpl.
  - left. split; [apply not_elem_of_nil | done].
  - destruct (IH (i + 1) (if (a =? c)%N then i else last))
      as [[Hnot ->] | (pre & post & -> & Hpost & ->)].
    + destruct (N.eqb_spec a c) as [->|Hne].
      * right. exists [], s. simpl. split; [done|]. split; [done | lia].
      * left. split; [|done]. rewrite not_elem_of_cons. split; [congruence | done].
    + right. exists (a :: pre), post. simpl. split; [done|]. split; [done | lia].
Qed.

Lemma rfind_spec c s :
  ((c ∉ s) ∧ rfind c s = -1)
  ∨ (∃ pre post, s = pre ++ c :: post ∧ (c ∉ post)
                 ∧ rfind c s = Z.of_nat (length pre)).
Proof.
  unfold rfind. destruct (rfind_from_spec c s 0 (-1)) as [H | (pre & post & H)].
  - by left.
  - right. exists pre, post. by rewrite Z.add_0_l in H.
Qed.

Lemma rfind_ge c s j : s !! j = Some c → Z.of_nat j <= rfind c s.
Proof.
  intros Hj. destruct (rfind_spec c s) as [[Hnot _] | (pre & post & -> & Hpost & ->)].
  - exfalso. apply Hnot. by eapply list_elem_of_lookup_2.
  - destruct (decide (j <= length pre)%nat); [lia|]. exfalso. apply Hpost.
    rewrite lookup_app_r in Hj by lia.
    destruct (j - length pre)%nat as [|k] eqn:Hk; [lia|]. simpl in Hj.
    by eapply list_elem_of_lookup_2.
Qed.

Lemma splitext_join p : (splitext p).1 ++ (splitext p).2 = p.
Proof.
  unfold splitext. destruct (_ >? _); simpl; [|apply app_nil_r].
  destruct (existsb _ _); simpl; [apply take_drop | apply app_nil_r].
Qed.

(** [os.path.splitext] splits without loss, and the extension is
    empty or is the last dot of the name with what follows it, in which
    there is no further dot and no slash. *)
Theorem splitext_shape p :
  (splitext p).1 ++ (splitext p).2 = p
  ∧ ((splitext p).2 = []
     ∨ ∃ rest, (splitext p).2 = 46%N :: rest ∧ (46%N ∉ rest) ∧ (47%N ∉ rest)).
Proof.
  unfold splitext.
  destruct (rfind 46 p >? rfind 47 p) eqn:Hgt; simpl; [|split; [apply app_nil_r | by left]].
  destruct (existsb _ _); simpl; [|split; [apply app_nil_r | by left]].
  split; [apply take_drop|]. right.
  apply Z.gtb_lt in Hgt.
  destruct (rfind_spec 46 p) as [[_ Hnone] | (pre & post & -> & Hpost & Hdot)].
  { destruct (rfind_spec 47 p) as [[_ H]|(? & ? & _ & _ & H)]; lia. }
  rewrite Hdot, Nat2Z.id, drop_app_length.
  exists post. split; [done|]. split; [done|].
  intros Hslash. apply list_elem_of_lookup in Hslash as [k Hk].
  pose proof (rfind_ge 47 (pre ++ 46%N :: post) (length pre + S k)) as Hge.
  rewrite lookup_app_r in Hge by lia.
  replace (length pre + S k - length pre)%nat with (S k) in Hge by lia.
  specialize (Hge Hk). lia.
Qed.

(** An accepted name ends in an allowed extension, whatever its letter
    case, after a stem that is not made of dots only. *)
Lemma allowed_extension name :
  _is_allowed_image_filename name = true →
  ∃ root ext, name = root ++ ext
              ∧ py_lower ext ∈ ALLOWED_IMAGE_EXTENSIONS
              ∧ (∃ c, c ∈ root ∧ c ≠ 46%N).
Proof.
  unfold _is_allowed_image_filename. intros Hallowed.
  apply bool_decide_eq_true in Hallowed.
  exists (splitext name).1, (splitext name).2.
  split; [symmetry; apply splitext_join|]. split; [done|].
  revert Hallowed. unfold splitext.
  destruct (rfind 46 name >? rfind 47 name); simpl;
    [|intros H; vm_compute in H; repeat (apply elem_of_cons in H as [H|H]; [discriminate|]);
      by apply elem_of_nil in H].
  destruct (existsb _ _) eqn:Hstem; simpl;
    [|intros H; vm_compute in H; repeat (apply elem_of_cons in H as [H|H]; [discriminate|]);
      by apply elem_of_nil in H].
  intros _. apply existsb_exists in Hstem as (c & Hin & Hc).
  exists c. split.
  - apply list_elem_of_In in Hin. apply list_elem_of_lookup in Hin as [k Hk].
    rewrite lookup_drop in Hk. by eapply list_elem_of_lookup_2.
  - apply negb_true_iff, N.eqb_neq in Hc. done.
Qed.

Lemma rfind_from_notin c s i last : c ∉ s → rfind_from c s i last = last.
Proof.
  intros Hnot. destruct (rfind_from_spec c s i last) as [[_ H]|(pre & post & -> & _)];
    [done|]. exfalso. apply Hnot. apply elem_of_app. right. apply elem_of_cons. by left.
Qed.

Lemma rfind_from_last c pre post i last :
  c ∉ post → rfind_from c (pre ++ c :: post) i last = i + Z.of_nat (length pre).
Proof.
  intros Hpost. revert i last. induction pre as [|a pre IH]; intros i last; simpl.
  - rewrite N.eqb_refl, rfind_from_notin by done. lia.
  - rewrite IH. lia.
Qed.

Lemma lower_cp_punct c : lower_cp c = 46%N ∨ lower_cp c = 47%N → lower_cp c = c.
Proof.
  unfold lower_cp.
  repeat (match goal with
          | |- context [N.leb ?a ?b] => destruct (N.leb_spec a b)
          | |- context [N.eqb ?a ?b] => destruct (N.eqb_spec a b)
          end; simpl in *); lia.
Qed.

Lemma py_lower_punct_free c s : c = 46%N ∨ c = 47%N → c ∉ py_lower s → c ∉ s.
Proof.
  intros Hc Hnot Hin. apply Hnot. unfold py_lower.
  apply list_elem_of_fmap. exists c. split; [|done].
  destruct Hc as [-> | ->]; reflexivity.
Qed.

(** X1. [_is_allowed_image_filename] accepts a name exactly for its last
    extension, compared without letter case: an accepted name is a stem
    with a character other than a dot followed by an allowed extension; a
    slash-free stem with such a character followed by an allowed extension
    is accepted; a name without a dot and a name that has only dots
    before its last dot are refused. *)
Theorem allowed_filename :
  (∀ name, _is_allowed_image_filename name = true →
     ∃ root ext, name = root ++ ext
                 ∧ py_lower ext ∈ ALLOWED_IMAGE_EXTENSIONS
                 ∧ (∃ c, c ∈ root ∧ c ≠ 46%N))
  ∧ (∀ root ext c,
       (47%N ∉ root) → c ∈ root → c ≠ 46%N →
       py_lower ext ∈ ALLOWED_IMAGE_EXTENSIONS →
       _is_allowed_image_filename (root ++ ext) = true)
  ∧ (∀ name, (46%N ∉ name) → _is_allowed_image_filename name = false)
  ∧ (∀ k ext, (46%N ∉ ext) →
       _is_allowed_image_filename (replicate k 46%N ++ 46%N :: ext) = false).
Proof.
  split; [exact allowed_extension|]. split; [|split].
  - intros root ext c Hslash Hc Hdot Hext.
    assert (∃ rest, ext = 46%N :: rest ∧ (46%N ∉ rest) ∧ (47%N ∉ rest))
      as (rest & -> & Hrest46 & Hrest47).
    { assert (∃ r, py_lower ext = 46%N :: r ∧ (46%N ∉ r) ∧ (47%N ∉ r))
        as (r & Hr & H46 & H47).
      { unfold ALLOWED_IMAGE_EXTENSIONS in Hext.
        repeat (apply elem_of_cons in Hext as [->|Hext];
                [eexists; split; [reflexivity|]; split; vm_compute;
                 intros H; repeat (apply elem_of_cons in H as [H|H]; [discriminate|]);
                 by apply elem_of_nil in H|]).
        by apply elem_of_nil in Hext. }
      destruct ext as [|c0 rest]; [discriminate|]. injection Hr as Hc0 Hr.
      exists rest. rewrite (lower_cp_punct c0) in Hc0 by (by left). subst c0.
      split; [done|]. fold (py_lower rest) in Hr. subst r.
      split; apply py_lower_punct_free; auto. }
    unfold _is_allowed_image_filename.
    assert (splitext (root ++ 46%N :: rest) = (root, 46%N :: rest)) as ->;
      [|simpl; by apply bool_decide_eq_true].
    unfold splitext, rfind.
    rewrite (rfind_from_last 46 root rest 0 (-1) Hrest46).
    rewrite (rfind_from_notin 47).
    2:{ rewrite not_elem_of_app, not_elem_of_cons. done. }
    destruct (Z.gtb_spec (0 + Z.of_nat (length root)) (-1)); [|lia].
    rewrite Z.add_0_l, Nat2Z.id, take_app_length, drop_app_length. simpl.
    change (drop (Z.to_nat (-1 + 1)) root) with root.
    assert (existsb (λ a, negb (a =? 46)%N) root = true) as ->; [|done].
    apply existsb_exists. exists c. split; [by apply list_elem_of_In|].
    by apply negb_true_iff, N.eqb_neq.
  - intros name Hnot. unfold _is_allowed_image_filename, splitext, rfind.
    rewrite (rfind_from_notin 46) by done.
    destruct (Z.gtb_spec (-1) (rfind_from 47 name 0 (-1))) as [Hlt|]; [|reflexivity].
    exfalso. destruct (rfind_spec 47 name) as [[_ H]|(? & ? & _ & _ & H)];
      unfold rfind in H; lia.
  - intros k ext Hext. unfold _is_allowed_image_filename, splitext, rfind.
    rewrite (rfind_from_last 46 (replicate k 46%N) ext 0 (-1) Hext).
    rewrite length_replicate, Z.add_0_l.
    destruct (_ >? _); [|reflexivity].
    match goal with
    | |- context [existsb ?f ?l] => assert (existsb f l = false) as ->; [|reflexivity]
    end.
    apply not_true_is_false. intros H. apply existsb_exists in H as (c & Hin & Hc).
    apply list_elem_of_In, list_elem_of_lookup in Hin as [j Hj].
    rewrite lookup_drop, Nat2Z.id in Hj. apply lookup_take_Some in Hj as [Hj Hlt].
    rewrite lookup_app_l in Hj by (rewrite length_replicate; lia).
    apply lookup_replicate in Hj as [-> _]. discriminate.
Qed.

Lemma allowed_filename_witness :
  _is_allowed_image_filename (py "holiday.2024" ++ py ".JPeG") = true
  ∧ _is_allowed_image_filename (py "README") = false
  ∧ _is_allowed_image_filename (replicate 0 46%N ++ 46%N :: py "png") = false.
Proof.
  destruct allowed_filename as (_ & Hyes & Hnodot & Hdots).
  split; [|split].
  - apply (Hyes (py "holiday.2024") (py ".JPeG") 104%N).
    + vm_compute. intros H.
      repeat (apply elem_of_cons in H as [H|H]; [discriminate|]). by apply elem_of_nil in H.
    + vm_compute. apply elem_of_cons. by left.
    + discriminate.
    + vm_compute. do 2 (apply elem_of_cons; right). apply elem_of_cons. by left.
  - apply Hnodot. vm_compute. intros H.
    repeat (apply elem_of_cons in H as [H|H]; [discriminate|]). by apply elem_of_nil in H.
  - apply Hdots. vm_compute. intros H.
    repeat (apply elem_of_cons in H as [H|H]; [discriminate|]). by apply elem_of_nil in H.
Defined.

(** ** Slugs *)

Lemma slug_alphabet_alnum : forallb is_alnum slug_alphabet = true.
Proof. reflexivity. Qed.

(** A slug of [n] characters, each of them a letter or a digit. *)
Lemma generate_slug_shape n picks :
  length (generate_slug n picks) = n
  ∧ Forall (λ c, is_alnum c = true) (generate_slug n picks).
Proof.
  unfold generate_slug. split; [by rewrite length_fmap, length_seq|].
  apply Forall_fmap, Forall_forall. intros i _. cbv beta. unfold compose.
  assert (picks i `mod` length slug_alphabet < length slug_alphabet)%nat as Hlt
    by (apply Nat.mod_upper_bound; discriminate).
  apply lookup_lt_is_Some_2 in Hlt as [c Hc]. rewrite Hc. simpl.
  pose proof slug_alphabet_alnum as Hall. rewrite forallb_forall in Hall.
  apply Hall, list_elem_of_In. by eapply list_elem_of_lookup_2.
Qed.

(** ** The link table *)

Lemma insert_attempts_spec draws i attempts row links :
  match insert_attempts draws i attempts row links with
  | (Ok slug, links') =>
      ∃ k, (k < attempts)%nat
           ∧ slug = generate_slug 6 (draws (i + k)%nat)
           ∧ links !! slug = None
           ∧ (∀ j, (j < k)%nat → is_Some (links !! generate_slug 6 (draws (i + j)%nat)))
           ∧ links' = <[slug := row slug]> links
  | (Raise e, links') =>
      e = OtherError ∧ links' = links
      ∧ ∀ j, (j < attempts)%nat → is_Some (links !! generate_slug 6 (draws (i + j)%nat))
  end.
Proof.
  revert i. induction attempts as [|n IH]; intros i; simpl.
  - split; [done|]. split; [done|]. lia.
  - destruct (links !! generate_slug 6 (draws i)) as [old|] eqn:Hi.
    + specialize (IH (S i)).
      destruct (insert_attempts draws (S i) n row links) as [[slug|e] links'].
      * destruct IH as (k & Hk & -> & Hfree & Htaken & ->).
        exists (S k). replace (i + S k)%nat with (S i + k)%nat by lia.
        split; [lia|]. split; [done|]. split; [done|]. split; [|done].
        intros [|j] Hj.
        -- rewrite Nat.add_0_r. by rewrite Hi.
        -- replace (i + S j)%nat with (S i + j)%nat by lia. apply Htaken. lia.
      * destruct IH as (-> & -> & Htaken). split; [done|]. split; [done|].
        intros [|j] Hj.
        -- rewrite Nat.add_0_r. by rewrite Hi.
        -- replace (i + S j)%nat with (S i + j)%nat by lia. apply Htaken. lia.
    + exists 0%nat. rewrite Nat.add_0_r. split; [lia|]. repeat split; try done. lia.
Qed.

Lemma insert_link_slug draws dest img_ref t d c sn bt og links slug links' :
  insert_link_with_unique_slug_v2 draws dest img_ref t d c sn bt og links
  = (Ok slug, links') →
  length slug = 6%nat ∧ Forall (λ c, is_alnum c = true) slug.
Proof.
  unfold insert_link_with_unique_slug_v2. intros Hins.
  pose proof (insert_attempts_spec draws 0 20
                (λ slug, LinkRow slug dest (Some img_ref) t (Some d) (Some c) sn bt og)
                links) as Hspec.
  rewrite Hins in Hspec. destruct Hspec as (k & _ & -> & _).
  apply generate_slug_shape.
Qed.


(** X2. [generate_slug] returns as many characters as it is asked for,
    each of them an ASCII letter or digit; the slug that
    [insert_link_with_unique_slug_v2] returns, and [create] hands out, has
    exactly six of them. *)
Theorem generate_slug_alnum :
  (∀ n picks,
     length (generate_slug n picks) = n
     ∧ Forall (λ c, is_alnum c = true) (generate_slug n picks))
  ∧ (∀ draws dest img_ref t d c sn bt og links slug links',
       insert_link_with_unique_slug_v2 draws dest img_ref t d c sn bt og links
       = (Ok slug, links') →
       length slug = 6%nat ∧ Forall (λ c, is_alnum c = true) slug).
Proof.
  split; [exact generate_slug_shape|].
  intros draws dest img_ref t d c sn bt og links slug links'.
  apply insert_link_slug.
Qed.

(** X3. A successful [insert_link_with_unique_slug_v2] returns the slug of
    the first of its twenty attempts that was free, stores under it the
    row of its arguments and leaves every other row as it was. *)
Theorem insert_link_fresh draws dest img_ref t d c sn bt og links slug links' :
  insert_link_with_unique_slug_v2 draws dest img_ref t d c sn bt og links
  = (Ok slug, links') →
  (∃ k, (k < 20)%nat ∧ slug = generate_slug 6 (draws k)
        ∧ ∀ j, (j < k)%nat → is_Some (links !! generate_slug 6 (draws j)))
  ∧ links !! slug = None
  ∧ links' !! slug
    = Some (LinkRow slug dest (Some img_ref) t (Some d) (Some c) sn bt og)
  ∧ (∀ other, other ≠ slug → links' !! other = links !! other).
Proof.
  unfold insert_link_with_unique_slug_v2. intros Hins.
  pose proof (insert_attempts_spec draws 0 20
                (λ slug, LinkRow slug dest (Some img_ref) t (Some d) (Some c) sn bt og)
                links) as Hspec.
  rewrite Hins in Hspec. destruct Hspec as (k & Hk & -> & Hfree & Htaken & ->).
  split; [by exists k|]. split; [done|]. split; [apply lookup_insert_eq|].
  intros other Hne. by apply lookup_insert_ne.
Qed.

Lemma insert_link_fresh_witness :
  ex_taken !! py "bbbbbb" = None
  ∧ (insert_link_with_unique_slug_v2 ex_draws (py "https://example.com/landing")
       (py "uploads/a.png") (py "Title") [] [] None None None ex_taken).1
    = Ok (py "bbbbbb").
Proof.
  pose proof (insert_link_fresh ex_draws (py "https://example.com/landing")
                (py "uploads/a.png") (py "Title") [] [] None None None ex_taken
                (py "bbbbbb")
                (insert_link_with_unique_slug_v2 ex_draws
                   (py "https://example.com/landing") (py "uploads/a.png")
                   (py "Title") [] [] None None None ex_taken).2
                ltac:(vm_compute; reflexivity)) as (_ & Hfree & _).
  split; [exact Hfree | vm_compute; reflexivity].
Defined.

(** X4. [insert_link_with_unique_slug_v2] fails exactly when the slugs of
    all twenty attempts are taken, and then the table is unchanged. *)
Theorem insert_link_exhausted draws dest img_ref t d c sn bt og links :
  (∀ j, (j < 20)%nat → is_Some (links !! generate_slug 6 (draws j)))
  ↔ insert_link_with_unique_slug_v2 draws dest img_ref t d c sn bt og links
    = (Raise OtherError, links).
Proof.
  unfold insert_link_with_unique_slug_v2.
  pose proof (insert_attempts_spec draws 0 20
                (λ slug, LinkRow slug dest (Some img_ref) t (Some d) (Some c) sn bt og)
                links) as Hspec.
  destruct (insert_attempts _ _ _ _ _) as [[slug|e] links']; split.
  - intros Htaken. destruct Hspec as (k & Hk & -> & Hfree & _).
    destruct (Htaken k Hk) as [x Hx]. simpl in Hfree. congruence.
  - discriminate.
  - intros _. by destruct Hspec as (-> & -> & _).
  - intros _. apply Hspec.
Qed.

(** ** Creating a link *)

Lemma insert_link_row draws dest img_ref t d c sn bt og links slug links' :
  insert_link_with_unique_slug_v2 draws dest img_ref t d c sn bt og links
  = (Ok slug, links') →
  links !! slug = None
  ∧ links' !! slug
    = Some (LinkRow slug dest (Some img_ref) t (Some d) (Some c) sn bt og)
  ∧ (∀ other, other ≠ slug → links' !! other = links !! other).
Proof.
  unfold insert_link_with_unique_slug_v2. intros Hins.
  pose proof (insert_attempts_spec draws 0 20
                (λ slug, LinkRow slug dest (Some img_ref) t (Some d) (Some c) sn bt og)
                links) as Hspec.
  rewrite Hins in Hspec. destruct Hspec as (k & _ & _ & Hfree & _ & ->).
  split; [done|]. split; [apply lookup_insert_eq|].
  intros other Hne. by apply lookup_insert_ne.
Qed.

Lemma save_uploaded_image_spec secure_filename req file_storage slug uploads :
  _save_uploaded_image secure_filename req file_storage slug uploads
  = if valid_upload secure_filename file_storage
    then
      let saved_name :=
        slug ++ py_lower (splitext (secure_filename
                            (or_else (fs_filename file_storage) []))).2 in
      (Ok (url_for_static req saved_name),
       <[saved_name := fs_data file_storage]> uploads)
    else (Raise (ValueError (py "Invalid image file type")), uploads).
Proof.
  unfold _save_uploaded_image, valid_upload.
  destruct (truthy (Some (secure_filename _))); [|done].
  destruct (_is_allowed_image_filename _); [|done].
  destruct (truthy (Some (or_else _ _))); [|done].
  by destruct (startswith _ _).
Qed.

(** X5. [create] without a destination, without a title, or with neither
    an image URL nor a named file is answered 400 and stores nothing. *)
Theorem create_rejects secure_filename strip draws req form s :
  truthy (cf_dest_url form) = false
  ∨ truthy (cf_title form) = false
  ∨ (truthy (cf_img_url form) = false ∧ has_file form = false) →
  status (create secure_filename strip draws req form s).1 = 400
  ∧ (create secure_filename strip draws req form s).2 = s.
Proof.
  unfold create. intros [Hd | [Ht | [Hi Hf]]].
  - by rewrite Hd.
  - rewrite Ht. by rewrite orb_true_r.
  - destruct (negb (truthy (cf_dest_url form)) || negb (truthy (cf_title form)));
      [done|]. by rewrite Hi, Hf.
Qed.

Lemma create_rejects_witness :
  status (create id id ex_draws ex_upload_req
            (ex_create_form None (Some (py "https://example.com/a.png")) None)
            ex_site).1 = 400
  ∧ (create id id ex_draws ex_upload_req
       (ex_create_form None (Some (py "https://example.com/a.png")) None)
       ex_site).2 = ex_site.
Proof.
  apply (create_rejects id id ex_draws ex_upload_req
           (ex_create_form None (Some (py "https://example.com/a.png")) None)
           ex_site).
  right. left. reflexivity.
Defined.



(** X7. A [create] whose named file is refused (type or content type) is
    answered 400 only after the link row was inserted: the row stays in
    the table, with the form's image URL or the empty string as image,
    and no file is stored. *)
Theorem create_refused_file_leaves_row secure_filename strip draws req form s
    file_storage slug links :
  truthy (cf_dest_url form) = true →
  truthy (cf_title form) = true →
  cf_img_file form = Some file_storage →
  truthy (fs_filename file_storage) = true →
  valid_upload secure_filename file_storage = false →
  insert_link_with_unique_slug_v2 draws (or_else (cf_dest_url form) [])
    (or_else (cf_img_url form) []) (or_else (cf_title form) [])
    (or_else (cf_description form) []) (or_else (cf_card_size form) [])
    (or_none (Some (strip (or_else (cf_site_name form) []))))
    (or_none (Some (strip (or_else (cf_button_text form) []))))
    (or_none (Some (strip (or_else (cf_og_url form) []))))
    (site_links s) = (Ok slug, links) →
  let result := create secure_filename strip draws req form s in
  result.1 = with_status (Text (py "Invalid image file type")) 400
  ∧ site_links s !! slug = None
  ∧ site_links result.2 !! slug
    = Some (created_row strip form slug (or_else (cf_img_url form) []))
  ∧ site_uploads result.2 = site_uploads s.
Proof.
  intros Hdest Htitle Hfile Hname Hinvalid Hins result. subst result.
  unfold create. rewrite Hdest, Htitle. simpl.
  assert (has_file form = true) as Hhas by (unfold has_file; by rewrite Hfile).
  rewrite Hhas, andb_false_r, Hins, Hfile, Hname, save_uploaded_image_spec, Hinvalid.
  simpl. apply insert_link_row in Hins as (Hfree & Hrow & _).
  done.
Qed.

Lemma create_refused_file_leaves_row_witness :
  (create id id ex_draws ex_upload_req
     (ex_create_form (Some (py "Title")) None (Some (ex_file (py "notes.txt") ex_png)))
     ex_site).1 = with_status (Text (py "Invalid image file type")) 400
  ∧ is_Some (site_links (create id id ex_draws ex_upload_req
       (ex_create_form (Some (py "Title")) None (Some (ex_file (py "notes.txt") ex_png)))
       ex_site).2 !! py "bbbbbb").
Proof.
  pose proof (create_refused_file_leaves_row id id ex_draws ex_upload_req
                (ex_create_form (Some (py "Title")) None
                   (Some (ex_file (py "notes.txt") ex_png)))
                ex_site (ex_file (py "notes.txt") ex_png) (py "bbbbbb")
                (insert_link_with_unique_slug_v2 ex_draws
                   (py "https://example.com/landing") [] (py "Title")
                   (py "Text") (py "large") None None None ex_taken).2
                ltac:(reflexivity) ltac:(reflexivity) ltac:(reflexivity)
                ltac:(reflexivity) ltac:(vm_compute; reflexivity)
                ltac:(vm_compute; reflexivity)) as (Hanswer & _ & Hrow & _).
  split; [exact Hanswer|]. rewrite Hrow. by eexists.
Defined.

(** ** The sweep, again *)

Lemma store_eq st1 st2 :
  images st1 = images st2 → uploads st1 = uploads st2 → st1 = st2.
Proof. destruct st1, st2. simpl. by intros -> ->. Qed.

Lemma is_expired_mono now now' row :
  now <= now' → is_expired now row = true → is_expired now' row = true.
Proof.
  unfold is_expired. destruct (expires_at row) as [e|]; [|done].
  rewrite !Z.leb_le. lia.
Qed.

(** The sweep never creates a file. *)
Lemma cleanup_uploads_none now st name :
  uploads st !! name = None →
  uploads (_cleanup_expired_images now st) !! name = None.
Proof.
  unfold _cleanup_expired_images.
  apply (map_fold_weak_ind (λ res rows,
    uploads st !! name = None → uploads res !! name = None)); [done|].
  intros i row m res _ IH Hnone. simpl. apply lookup_delete_None. right. by apply IH.
Qed.

(** Whether an expired row names a file is decidable. *)
Lemma expired_name_dec now st name :
  (∃ j row, images st !! j = Some row ∧ is_expired now row = true
            ∧ filename row = name)
  ∨ (∀ j row, images st !! j = Some row → is_expired now row = true →
              filename row ≠ name).
Proof.
  destruct (decide (Exists (λ kr : pystr * ImageRecord,
                              is_expired now kr.2 = true ∧ filename kr.2 = name)
                      (map_to_list (images st)))) as [Hex|Hno].
  - left. apply Exists_exists in Hex as ([j row] & Hin & He & Hn).
    apply elem_of_map_to_list in Hin. by exists j, row.
  - right. intros j row Hj He Hn. apply Hno, Exists_exists.
    exists (j, row). split; [by apply elem_of_map_to_list | done].
Qed.

(** X8. Sweeping at a clock reading and again at a later one leaves the
    store that the later sweep alone leaves; in particular a second sweep
    at the same reading changes nothing. *)
Theorem sweep_twice now now' st :
  now <= now' →
  _cleanup_expired_images now' (_cleanup_expired_images now st)
  = _cleanup_expired_images now' st.
Proof.
  intros Hle. apply store_eq.
  - apply map_eq. intros i. rewrite !cleanup_images.
    destruct (images st !! i) as [row|]; [|done].
    destruct (is_expired now row) eqn:He; [|done].
    by rewrite (is_expired_mono now now' row Hle He).
  - apply map_eq. intros name.
    destruct (expired_name_dec now' st name) as [(j & row & Hj & He & <-)|Hno].
    + rewrite (cleanup_uploads_gone now' st j row Hj He).
      destruct (is_expired now row) eqn:He0.
      * apply cleanup_uploads_none. by apply (cleanup_uploads_gone now st j).
      * apply (cleanup_uploads_gone now' _ j); [|done].
        by rewrite cleanup_images, Hj, He0.
    + rewrite (cleanup_uploads_kept now' st name Hno).
      rewrite cleanup_uploads_kept.
      * apply cleanup_uploads_kept. intros j row Hj He.
        apply (Hno j row Hj). by eapply is_expired_mono.
      * intros j row Hj He. rewrite cleanup_images in Hj.
        destruct (images st !! j) as [row'|] eqn:Hj'; [|done].
        destruct (is_expired now row'); [done|]. injection Hj as <-.
        by apply (Hno j).
Qed.

Lemma sweep_twice_witness :
  _cleanup_expired_images 200 (_cleanup_expired_images 200 (ex_store (Some 160)))
  = _cleanup_expired_images 200 (ex_store (Some 160))
  ∧ _cleanup_expired_images 200 (ex_store (Some 160)) = Store ∅ ∅.
Proof.
  split.
  - apply (sweep_twice 200 200 (ex_store (Some 160))). lia.
  - vm_compute. reflexivity.
Defined.

(** ** Viewing an image *)

(** X9. [image_view] shows an image only if its record exists and is
    expired neither for the sweep nor for the view's own test; every other
    request is answered 404 [Image not found]; and the view changes the
    store by its sweep alone. *)
Theorem view_shows_only_live now_sweep now image_id req st :
  let result := image_view now_sweep now image_id req st in
  (status result.1 = 200
   ↔ ∃ row, images st !! image_id = Some row
            ∧ is_expired now_sweep row = false
            ∧ _is_image_not_expired now (expires_at row) = true)
  ∧ (status result.1 ≠ 200 →
     result.1 = with_status (Text (py "Image not found")) 404)
  ∧ result.2 = _cleanup_expired_images now_sweep st.
Proof.
  intros result. subst result. unfold image_view.
  rewrite cleanup_images.
  destruct (images st !! image_id) as [row|] eqn:Hrow.
  - destruct (is_expired now_sweep row) eqn:He; simpl.
    + split; [|done]. split; [discriminate|]. intros (r & [= <-] & H & _). congruence.
    + destruct (_is_image_not_expired now (expires_at row)) eqn:Hlive; simpl.
      * split; [|done]. split; [|done]. intros _. by exists row.
      * split; [|done]. split; [discriminate|].
        intros (r & [= <-] & _ & H). congruence.
  - simpl. split; [|done]. split; [discriminate|]. by intros (r & ? & _).
Qed.

(** ** Uploading, then deleting *)

Lemma save_uploaded_raise secure_filename pil req file_storage image_id offset_y st e st' :
  _save_uploaded_image_for_image_host secure_filename pil req file_storage
    image_id offset_y st = (Raise e, st') →
  st' = st.
Proof.
  unfold _save_uploaded_image_for_image_host.
  repeat case_match; intros [= <- <-] || intros [=]; done.
Qed.

Lemma save_uploaded_invalid secure_filename pil req file_storage image_id offset_y st :
  valid_upload secure_filename file_storage = false →
  _save_uploaded_image_for_image_host secure_filename pil req file_storage
    image_id offset_y st
  = (Raise (ValueError (py "Invalid image file type")), st).
Proof.
  unfold valid_upload, _save_uploaded_image_for_image_host.
  destruct (truthy (Some (secure_filename _))); [|done].
  destruct (_is_allowed_image_filename _); [|done].
  destruct (truthy (Some (or_else _ _))); [|done].
  by destruct (startswith _ _).
Qed.

(** The row and the file of an upload that was answered 200. *)
Lemma upload_ok_row secure_filename parse_int strip pil now_sweep now_expiry
    now_created image_id token req form st :
  let up := api_upload secure_filename parse_int strip pil now_sweep now_expiry
              now_created image_id token req form st in
  status up.1 = 200 →
  ∃ file_storage expires,
    up_file form = Some file_storage
    ∧ upload_expiry parse_int now_expiry (up_expiry_minutes form) = Some expires
    ∧ images (_cleanup_expired_images now_sweep st) !! image_id = None
    ∧ let saved_name :=
        image_id ++ py_lower (splitext (secure_filename
                                (or_else (fs_filename file_storage) []))).2 in
      images up.2 !! image_id
      = Some (ImageRow saved_name (fs_mimetype file_storage)
                (strip (or_else (up_title form) []))
                (strip (or_else (up_description form) []))
                now_created expires token)
      ∧ is_Some (uploads up.2 !! saved_name).
Proof.
  intros up. subst up. unfold api_upload.
  destruct (up_file form) as [file_storage|]; [|discriminate].
  destruct (truthy (fs_filename file_storage)); [|discriminate]. simpl.
  destruct (upload_expiry parse_int now_expiry (up_expiry_minutes form))
    as [expires|]; [|discriminate].
  destruct (valid_upload secure_filename file_storage) eqn:Hvalid.
  - destruct (save_uploaded_valid secure_filename pil req file_storage image_id
                (upload_offset parse_int (up_offset_y form))
                (_cleanup_expired_images now_sweep st) Hvalid)
      as (Hres & Himages & Huploads).
    destruct (_save_uploaded_image_for_image_host _ _ _ _ _ _ _) as [res st1].
    simpl in Hres, Himages, Huploads. subst res.
    destruct (negb (from_option sqlite_integer true expires)); [discriminate|].
    unfold insert_image. rewrite Himages.
    destruct (images (_cleanup_expired_images now_sweep st) !! image_id) eqn:Hfresh;
      [discriminate|].
    simpl. intros _. exists file_storage, expires.
    split; [done|]. split; [done|]. split; [done|]. split.
    + apply lookup_insert_eq.
    + rewrite Huploads, lookup_insert_eq. by eexists.
  - by rewrite save_uploaded_invalid.
Qed.

(** X10. The token that a successful upload hands out deletes the image:
    presented before the record expires, it is answered [ok], the record
    and its file are gone, no other record is touched, and whatever is
    asked for the same id afterwards is answered 400 or 404. *)
Theorem upload_then_delete secure_filename parse_int strip pil now_sweep
    now_expiry now_created image_id token req form st t_sweep t_delete dreq :
  let up := api_upload secure_filename parse_int strip pil now_sweep now_expiry
              now_created image_id token req form st in
  status up.1 = 200 →
  token ≠ [] →
  form_delete_token dreq = Some token →
  t_sweep <= t_delete →
  (∀ e, upload_expiry parse_int now_expiry (up_expiry_minutes form) = Some (Some e) →
        t_delete < e) →
  let del := api_delete_image t_sweep t_delete image_id dreq up.2 in
  ∃ row,
    images up.2 !! image_id = Some row
    ∧ delete_token row = token
    ∧ is_Some (uploads up.2 !! filename row)
    ∧ del.1 = json_ok
    ∧ images del.2 !! image_id = None
    ∧ uploads del.2 !! filename row = None
    ∧ (∀ other, other ≠ image_id →
         images del.2 !! other
         = images (_cleanup_expired_images t_sweep up.2) !! other)
    ∧ (∀ t t' req',
         let again := api_delete_image t t' image_id req' del.2 in
         again.1 = json_error (py "Missing delete_token") 400
         ∨ again.1 = json_error (py "Not found") 404).
Proof.
  intros up Hok Htoken Hform Hle Hlive del.
  destruct (upload_ok_row secure_filename parse_int strip pil now_sweep now_expiry
              now_created image_id token req form st Hok)
    as (file_storage & expires & Hfile & Hexpiry & Hfresh & Hrow & Hstored).
  fold up in Hrow, Hstored.
  match type of Hrow with _ = Some ?r => set (row := r) in * end.
  exists row. split; [done|]. split; [done|]. split; [done|].
  assert (is_expired t_delete row = false) as Hlater.
  { unfold is_expired. simpl. destruct expires as [e|]; [|done].
    apply Z.leb_gt. by apply Hlive. }
  assert (is_expired t_sweep row = false) as Hnow.
  { destruct (is_expired t_sweep row) eqn:He; [|done].
    by rewrite (is_expired_mono t_sweep t_delete row Hle He) in Hlater. }
  assert (request_token dreq = Some (JString token)) as Hreq.
  { unfold request_token. rewrite Hform. simpl. by destruct token. }
  assert (del = (json_ok, remove_row image_id row
                            (_cleanup_expired_images t_sweep up.2))) as ->.
  { subst del. unfold api_delete_image. rewrite Hreq, cleanup_images, Hrow, Hnow.
    simpl. destruct token; [done|]. simpl. rewrite Hlater.
    by rewrite bool_decide_eq_true_2. }
  simpl. split; [done|]. split; [apply lookup_delete_eq|].
  split; [apply lookup_delete_eq|]. split.
  { intros other Hne. by apply lookup_delete_ne. }
  intros t t' req'. unfold api_delete_image.
  destruct (token_truthy (request_token req')); simpl; [|by left].
  rewrite cleanup_images. simpl. rewrite lookup_delete_eq. by right.
Qed.

Lemma upload_then_delete_witness :
  (api_delete_image 150 160 (py "c0de") (ex_delete_req (Some (py "s3cret")))
     (api_upload id ex_parse_int id (Some ex_pil) 100 100 100 (py "c0de")
        (py "s3cret") ex_upload_req (ex_upload_form [8; 6]%N (Some (py "30")))
        (ex_store None)).2).1 = json_ok.
Proof.
  destruct (upload_then_delete id ex_parse_int id (Some ex_pil) 100 100 100
              (py "c0de") (py "s3cret") ex_upload_req
              (ex_upload_form [8; 6]%N (Some (py "30"))) (ex_store None)
              150 160 (ex_delete_req (Some (py "s3cret")))
              ltac:(vm_compute; reflexivity) ltac:(discriminate)
              ltac:(reflexivity) ltac:(lia)
              ltac:(intros e [= <-]; reflexivity))
    as (row & _ & _ & _ & Hdel & _).
  exact Hdel.
Defined.

(** ** What the creating handlers leave behind *)

Lemma save_uploaded_frame secure_filename pil req file_storage image_id offset_y st name :
  ¬ image_id `prefix_of` name →
  uploads (_save_uploaded_image_for_image_host secure_filename pil req
             file_storage image_id offset_y st).2 !! name
  = uploads st !! name.
Proof.
  intros Hprefix. unfold _save_uploaded_image_for_image_host.
  repeat case_match; simpl; try done.
  all: rewrite ?lookup_insert_ne; [done|..].
  all: intros <-; apply Hprefix; by eexists.
Qed.

(** X11. Every 400 answer of [api_upload] and of [api_create_grid] leaves
    the store as the opening sweep left it: no file is written and no
    record inserted for a request that is rejected. *)
Theorem rejected_requests_store_nothing secure_filename parse_int strip pil
    now_sweep now_expiry now_created image_id token req :
  (∀ form st,
     let up := api_upload secure_filename parse_int strip pil now_sweep now_expiry
                 now_created image_id token req form st in
     status up.1 = 400 → up.2 = _cleanup_expired_images now_sweep st)
  ∧ (∀ form st,
       let grid := api_create_grid secure_filename strip pil now_sweep now_created
                     image_id token req form st in
       status grid.1 = 400 → grid.2 = _cleanup_expired_images now_sweep st).
Proof.
  split; intros form st.
  - unfold api_upload. repeat case_match; simpl; try done.
    intros _. by eapply save_uploaded_raise.
  - unfold api_create_grid. repeat case_match; simpl; done.
Qed.

(** X12. [api_upload] and [api_create_grid] touch nothing but their own
    record and file: whatever they answer, the record of every other id
    and every file whose name does not begin with the new id are as the
    opening sweep left them. *)
Theorem creating_handlers_frame secure_filename parse_int strip pil
    now_sweep now_expiry now_created image_id token req st :
  (∀ form,
     let up := api_upload secure_filename parse_int strip pil now_sweep now_expiry
                 now_created image_id token req form st in
     (∀ other, other ≠ image_id →
        images up.2 !! other = images (_cleanup_expired_images now_sweep st) !! other)
     ∧ (∀ name, ¬ image_id `prefix_of` name →
          uploads up.2 !! name
          = uploads (_cleanup_expired_images now_sweep st) !! name))
  ∧ (∀ form,
       let grid := api_create_grid secure_filename strip pil now_sweep now_created
                     image_id token req form st in
       (∀ other, other ≠ image_id →
          images grid.2 !! other
          = images (_cleanup_expired_images now_sweep st) !! other)
       ∧ (∀ name, ¬ image_id `prefix_of` name →
            uploads grid.2 !! name
            = uploads (_cleanup_expired_images now_sweep st) !! name)).
Proof.
  split; intros form.
  - unfold api_upload. split.
    + intros other Hne.
      repeat case_match; simpl; try done.
      all: match goal with
           | H : _save_uploaded_image_for_image_host ?a ?b ?c ?d ?e ?f ?g = (_, ?s) |- _ =>
               pose proof (save_uploaded_images a b c d e f g) as Himg;
               rewrite H in Himg; simpl in Himg
           end.
      all: try match goal with H : insert_image _ _ _ = Some _ |- _ =>
                 apply insert_image_rows in H as [-> _] end.
      all: rewrite ?lookup_insert_ne by done; by rewrite Himg.
    + intros name Hprefix.
      repeat case_match; simpl; try done.
      all: match goal with
           | H : _save_uploaded_image_for_image_host ?a ?b ?c ?d ?e ?f ?g = (_, ?s) |- _ =>
               pose proof (save_uploaded_frame a b c d e f g name Hprefix) as Hup;
               rewrite H in Hup; simpl in Hup
           end.
      all: try match goal with H : insert_image _ _ _ = Some _ |- _ =>
                 apply insert_image_rows in H as [_ ->] end.
      all: done.
  - unfold api_create_grid. split.
    + intros other Hne.
      repeat case_match; simpl; try done.
      all: match goal with H : insert_image _ _ _ = Some _ |- _ =>
             apply insert_image_rows in H as [-> _] end.
      all: simpl; by rewrite lookup_insert_ne.
    + intros name Hprefix.
      repeat case_match; simpl; try done.
      all: try match goal with H : insert_image _ _ _ = Some _ |- _ =>
                 apply insert_image_rows in H as [_ ->] end.
      all: simpl; rewrite lookup_insert_ne; [done|].
      all: intros <-; apply Hprefix; by eexists.
Qed.

(** ** The grid for every number of images *)

(** The overlay changes neither the size nor the pastes of a grid. *)
Lemma grid_from_base p image_files overlay_text base :
  _create_grid_image (Some p) image_files None (1200, 628) = Ok base →
  ∃ canvas,
    _create_grid_image (Some p) image_files overlay_text (1200, 628) = Ok canvas
    ∧ size canvas = size base
    ∧ pastes canvas = pastes base
    ∧ ∀ x y, pasted_over canvas x y = pasted_over base x y.
Proof.
  unfold _create_grid_image.
  destruct (Z.of_nat (length image_files) <? 2); [discriminate|].
  destruct (if Z.of_nat (length image_files) >? 5 then _ else _) as [n files].
  destruct (layout n) as [cols rows].
  destruct (paste_cells _ _ _ _ _ _ _) as [c|]; [|discriminate].
  simpl. intros [= <-].
  destruct (truthy overlay_text); eexists; (split; [done|]).
  - split; [apply draw_overlay_size|]. split; [apply draw_overlay_pastes|].
    intros x y. apply draw_overlay_pasted_over.
  - done.
Qed.

(** Images after the fifth are ignored. *)
Lemma grid_truncates p image_files overlay_text :
  _create_grid_image (Some p) image_files overlay_text (1200, 628)
  = _create_grid_image (Some p) (take 5 image_files) overlay_text (1200, 628).
Proof.
  destruct image_files as [|a [|b [|c [|d [|e [|f rest]]]]]]; try reflexivity.
  unfold _create_grid_image.
  destruct (Z.ltb_spec (Z.of_nat (length (a :: b :: c :: d :: e :: f :: rest))) 2);
    [simpl in *; lia|].
  destruct (Z.gtb_spec (Z.of_nat (length (a :: b :: c :: d :: e :: f :: rest))) 5);
    [|simpl in *; lia].
  reflexivity.
Qed.

(** X13. For every list of at least two images the grid is a canvas of
    1200 by 628 pixels that carries one paste for each of the first five
    images, in their order, each resized to the cell of the layout and
    lying inside the canvas; images after the fifth are ignored; and for
    two, three or four images the pastes cover the whole canvas. *)
Theorem grid_geometry p image_files overlay_text :
  (2 <= length image_files)%nat →
  let n := Z.of_nat (length image_files `min` 5) in
  let cell_w := 1200 `div` (layout n).1 in
  let cell_h := 628 `div` (layout n).2 in
  ∃ canvas,
    _create_grid_image (Some p) image_files overlay_text (1200, 628) = Ok canvas
    ∧ _create_grid_image (Some p) (take 5 image_files) overlay_text (1200, 628)
      = Ok canvas
    ∧ size canvas = (1200, 628)
    ∧ Forall2 (λ img q, ∃ x y, q = (Resize img cell_w cell_h, x, y))
        (take 5 image_files) (pastes canvas)
    ∧ Forall (paste_inside 1200 628) (pastes canvas)
    ∧ ((length image_files <= 4)%nat →
       ∀ x y, 0 <= x < 1200 → 0 <= y < 628 → pasted_over canvas x y = true).
Proof.
  intros Hlen n cell_w cell_h.
  rewrite (grid_truncates p image_files overlay_text).
  assert (length (take 5 image_files) = (length image_files `min` 5)%nat) as Htake
    by (rewrite length_take; lia).
  assert ((length image_files <= 4)%nat → (length (take 5 image_files) <= 4)%nat)
    as Hsmall by (rewrite length_take; lia).
  assert (2 <= length (take 5 image_files) <= 5)%nat as Hbounds
    by (rewrite length_take; lia).
  subst n cell_w cell_h. rewrite <- Htake. clear Htake.
  destruct (take 5 image_files) as [|a [|b [|c [|d [|e [|f rest]]]]]];
    simpl in Hbounds; try lia; clear Hbounds.
  all: match goal with
       | |- context [_create_grid_image (Some ?q) ?l ?o _] =>
           let r := eval vm_compute in (_create_grid_image (Some q) l None (1200, 628)) in
           match r with
           | Ok ?base =>
               destruct (grid_from_base q l o base eq_refl)
                 as (canvas & Hcanvas & Hsize & Hpastes & Hover)
           end
       end.
  all: exists canvas; split; [exact Hcanvas|]; split; [exact Hcanvas|].
  all: split; [by rewrite Hsize|]; rewrite Hpastes.
  all: simpl; split; [repeat constructor; by eexists _, _|].
  all: split; [repeat constructor; simpl; lia|].
  all: intros Hfew x y Hx Hy; rewrite Hover; apply Hsmall in Hfew;
    simpl in Hfew |- *; try lia.
  all: case_compare; try reflexivity; lia.
Qed.

Lemma grid_geometry_witness :
  ∃ canvas,
    _create_grid_image (Some ex_pil) ex_tiles (Some (py "+9")) (1200, 628) = Ok canvas
    ∧ size canvas = (1200, 628).
Proof.
  destruct (grid_geometry ex_pil ex_tiles (Some (py "+9")) ltac:(simpl; lia))
    as (canvas & Hcanvas & _ & Hsize & _).
  exists canvas. split; [exact Hcanvas | exact Hsize].
Defined.

(** ** The CSRF check *)

Lemma token_truthy_string o : token_truthy (JString <$> o) = truthy o.
Proof. by destruct o. Qed.

Lemma csrf_differs_string a session_token :
  csrf_differs (Some (JString a)) session_token = false ↔ session_token = Some a.
Proof.
  destruct session_token as [b|]; simpl; [|done].
  rewrite negb_false_iff, bool_decide_eq_true. split; congruence.
Qed.

(** The check lets a request with a token through only for that very
    string in the session. *)
Lemma csrf_accepts token session_token :
  negb (token_truthy token) || csrf_differs token session_token = false →
  ∃ s, s ≠ [] ∧ token = Some (JString s) ∧ session_token = Some s.
Proof.
  rewrite orb_false_iff, negb_false_iff. intros [Htruthy Hsame].
  destruct token as [[s|b]|]; simpl in *; try done.
  - exists s. split; [by destruct s|]. split; [done|].
    by apply csrf_differs_string.
Qed.

(** X14. [_csrf_protect] lets the four safe methods through unchecked.
    Any other request passes only if the session holds a non-empty token
    and the request presents that very string, in the form, in the
    [csrf_token] of a JSON body, or in one of the two headers.  A
    non-empty form token decides alone: neither a JSON body nor a header
    is consulted after it. *)
Theorem csrf_gate session_token r :
  (cr_method r ∈ safe_methods → _csrf_protect session_token r = Proceed)
  ∧ (cr_method r ∉ safe_methods →
     _csrf_protect session_token r = Proceed →
     ∃ s, s ≠ [] ∧ session_token = Some s
          ∧ (cr_form_token r = Some s
             ∨ (cr_is_json r = true ∧ cr_json r = JsonDict (Some (JString s)))
             ∨ cr_x_csrftoken r = Some s
             ∨ cr_x_csrf_token r = Some s))
  ∧ (cr_method r ∉ safe_methods →
     truthy (cr_form_token r) = true →
     _csrf_protect session_token r
     = if bool_decide (session_token = cr_form_token r) then Proceed
       else Refuse (with_status (Text (py "Invalid CSRF token")) 400)).
Proof.
  unfold _csrf_protect. split; [|split].
  - intros Hsafe. by rewrite bool_decide_eq_true_2.
  - intros Hunsafe. rewrite bool_decide_eq_false_2 by done.
    rewrite token_truthy_string.
    destruct (truthy (cr_form_token r)) eqn:Hform; simpl.
    + repeat (rewrite token_truthy_string, Hform; simpl).
      destruct (csrf_differs _ _) eqn:Hdiff; [discriminate|]. intros _.
      destruct (cr_form_token r) as [s|]; [|done]. simpl in Hdiff.
      apply csrf_differs_string in Hdiff.
      exists s. split; [by destruct s|]. split; [done|]. by left.
    + assert (∀ token,
                (if negb (token_truthy
                            (if negb (token_truthy token)
                             then JString <$> or_header (cr_x_csrftoken r) (cr_x_csrf_token r)
                             else token))
                    || csrf_differs
                         (if negb (token_truthy token)
                          then JString <$> or_header (cr_x_csrftoken r) (cr_x_csrf_token r)
                          else token) session_token
                 then Refuse (with_status (Text (py "Invalid CSRF token")) 400)
                 else Proceed) = Proceed →
                ∃ s, s ≠ [] ∧ session_token = Some s
                     ∧ (token = Some (JString s)
                        ∨ cr_x_csrftoken r = Some s ∨ cr_x_csrf_token r = Some s))
        as Hstep.
      { intros token.
        destruct (negb (token_truthy _) || csrf_differs _ _) eqn:Hpass; [discriminate|].
        intros _. apply csrf_accepts in Hpass as (s & Hs & Htoken & Hsession).
        exists s. split; [done|]. split; [done|].
        destruct (token_truthy token); simpl in Htoken; [by left|].
        right. unfold or_header in Htoken.
        destruct (truthy (cr_x_csrftoken r)).
        - left. destruct (cr_x_csrftoken r); by simplify_eq/=.
        - right. destruct (cr_x_csrf_token r); by simplify_eq/=. }
      destruct (cr_is_json r) eqn:Hjson.
      * destruct (cr_json r) as [t| |] eqn:Hbody; [| |discriminate].
        -- intros Hpass. apply Hstep in Hpass as (s & Hs & Hsession & Hwhere).
           exists s. split; [done|]. split; [done|].
           destruct Hwhere as [-> | Hheader]; auto.
        -- intros Hpass. apply Hstep in Hpass as (s & Hs & Hsession & Hwhere).
           exists s. split; [done|]. split; [done|].
           destruct Hwhere as [? | Hheader]; [done | auto].
      * intros Hpass. apply Hstep in Hpass as (s & Hs & Hsession & Hwhere).
        exists s. split; [done|]. split; [done|].
        destruct Hwhere as [Hform' | Hheader]; [|auto].
        destruct (cr_form_token r); [|done]. left. by simplify_eq/=.
  - intros Hunsafe Hform. rewrite bool_decide_eq_false_2 by done.
    repeat (rewrite token_truthy_string, Hform; simpl).
    destruct (cr_form_token r) as [s|]; [|done]. simpl.
    destruct session_token as [b|]; simpl.
    + repeat case_bool_decide; simpl; congruence.
    + try case_bool_decide; done.
Qed.

(** X15. The token that [_generate_csrf_token] returns is the one it
    leaves in the session, a later call returns it again, and a request
    that carries it, in the form, in a JSON body or in the header
    [X-CSRFToken], passes [_csrf_protect]. *)
Theorem csrf_round_trip session_token fresh fresh' r :
  fresh ≠ [] →
  let token := (_generate_csrf_token session_token fresh).1 in
  let session_token' := (_generate_csrf_token session_token fresh).2 in
  token ≠ []
  ∧ session_token' = Some token
  ∧ _generate_csrf_token session_token' fresh' = (token, session_token')
  ∧ (cr_form_token r = Some token
     ∨ (truthy (cr_form_token r) = false ∧ cr_is_json r = true
        ∧ cr_json r = JsonDict (Some (JString token)))
     ∨ (truthy (cr_form_token r) = false ∧ cr_is_json r = false
        ∧ cr_x_csrftoken r = Some token) →
     _csrf_protect session_token' r = Proceed).
Proof.
  intros Hfresh token session_token'.
  assert (token ≠ [] ∧ session_token' = Some token) as [Htoken Hsession].
  { subst token session_token'. unfold _generate_csrf_token.
    destruct session_token as [[|c s]|]; simpl; done. }
  clearbody token session_token'. subst session_token'.
  destruct token as [|c token]; [done|].
  split; [done|]. split; [done|]. split; [done|].
  unfold _csrf_protect.
  destruct (bool_decide (cr_method r ∈ safe_methods)); [done|].
  intros [Hform | [(Hform & Hjson & Hbody) | (Hform & Hjson & Hheader)]].
  - rewrite Hform. simpl. by rewrite bool_decide_eq_true_2.
  - rewrite token_truthy_string, Hform, Hjson, Hbody. simpl.
    by rewrite bool_decide_eq_true_2.
  - rewrite token_truthy_string, Hform, Hjson. simpl.
    rewrite token_truthy_string, Hform. simpl.
    unfold or_header. rewrite Hheader. simpl.
    by rewrite bool_decide_eq_true_2.
Qed.

Lemma csrf_round_trip_witness :
  _csrf_protect (_generate_csrf_token None (py "t0k3n")).2
    (ex_csrf_request (py "POST") None (Some (py "t0k3n"))) = Proceed.
Proof.
  destruct (csrf_round_trip None (py "t0k3n") (py "other")
              (ex_csrf_request (py "POST") None (Some (py "t0k3n")))
              ltac:(discriminate)) as (_ & _ & _ & Hpass).
  apply Hpass. right. right. repeat split; reflexivity.
Defined.

(** ** The 404 handler *)

Lemma contains_lower_ci sub s :
  py_lower sub = sub →
  contains sub (py_lower s) = true ↔ ci_contains sub s.
Proof.
  intros Hsub. unfold ci_contains. split.
  - intros Hc. apply contains_infix in Hc as (pre & post & Hc).
    unfold py_lower in Hc.
    apply fmap_app_inv in Hc as (pre' & rest & -> & Hrest & ->).
    symmetry in Hrest.
    apply fmap_app_inv in Hrest as (mid & post' & -> & -> & ->).
    exists pre', mid, post'. split; [done|].
    fold (py_lower mid). by rewrite py_lower_idemp.
  - intros (pre & mid & post & -> & Hmid).
    apply contains_infix. exists (py_lower pre), (py_lower post).
    unfold py_lower. rewrite !fmap_app. fold (py_lower mid).
    by rewrite Hmid, Hsub.
Qed.

(** X16. Whatever [unquote] does, [handle_not_found] sends a request to
    the upload page exactly when the decoded path (the raw path if the
    decoding failed) holds a character of the Thai block, or the raw path
    holds the escape prefix [%e0%b8] in any letter case; every other
    request gets the plain 404. *)
Theorem not_found_answers unquote req :
  let path := req_path req in
  let answer := handle_not_found unquote req in
  (answer = redirect (py "/upload") 302
   ↔ (∃ ch, ch ∈ default path (unquote path) ∧ (3584 <= ch <= 3711)%N)
     ∨ ci_contains (py "%e0%b8") path)
  ∧ (answer = redirect (py "/upload") 302
     ∨ answer = with_status (Text (py "Not found")) 404).
Proof.
  intros path answer. subst path answer. unfold handle_not_found.
  rewrite <- (contains_lower_ci (py "%e0%b8") (req_path req)) by done.
  assert (existsb is_thai (default (req_path req) (unquote (req_path req))) = true
          ↔ ∃ ch, ch ∈ default (req_path req) (unquote (req_path req))
                  ∧ (3584 <= ch <= 3711)%N) as Hthai.
  { rewrite existsb_exists. unfold is_thai. split.
    - intros (ch & Hin & Hch). exists ch. split; [by apply list_elem_of_In|].
      apply andb_true_iff in Hch as [?%N.leb_le ?%N.leb_le]. lia.
    - intros (ch & Hin & Hch). exists ch. split; [by apply list_elem_of_In|].
      apply andb_true_iff. split; apply N.leb_le; lia. }
  rewrite <- Hthai.
  destruct (existsb is_thai _); simpl.
  - split; [|by left]. split; [by left | done].
  - destruct (contains _ _); simpl.
    + split; [|by left]. split; [by right | done].
    + split; [|by right]. split; [discriminate | by intros [|]].
Qed.

(** ** Every card has the size of the card *)

(** X17. Whatever the source and the offset, a card that
    [_save_uploaded_image_for_image_host] builds is 1200 by 628 pixels: it
    is either the whole source, resized to the height 628 and pasted
    centred on the top edge of a black canvas, or a crop of the full width
    of the source, resized to 1200 by 628. *)
Theorem card_shape img offset_y c :
  card img offset_y = Some c →
  size c = (1200, 628)
  ∧ ((∃ new_w, 0 < new_w
               ∧ c = Paste (New 1200 628 (0, 0, 0)) (Resize img new_w 628)
                       ((1200 - new_w) `div` 2) 0)
     ∨ (∃ top crop_h, crop_height (size img).1 (size img).2 = Some crop_h
                      ∧ c = Resize (Crop img 0 top (size img).1 (top + crop_h))
                              1200 628)).
Proof.
  unfold card, target_w, target_h. destruct (size img) as [w h]. simpl.
  destruct (if h >? 0 then Float.truediv w h else Some Float.one) as [ratio|];
    [|done]. simpl.
  destruct (Float.leb ratio Float.one).
  - destruct (Float.truediv 628 h) as [scale|]; [|done]. simpl.
    destruct (Float.of_int w) as [fw|]; [|done]. simpl.
    destruct (Float.to_int (Float.mul fw scale)) as [new_w|]; [|done]. simpl.
    unfold resize. destruct (Z.ltb_spec 0 new_w); [|done]. simpl.
    intros [= <-]. split; [done|]. left. by exists new_w.
  - destruct (crop_height w h) as [crop_h|]; [|done]. simpl.
    unfold resize. simpl. intros [= <-]. split; [done|]. right. by eexists _, _.
Qed.

Lemma card_shape_witness :
  size (Paste (New 1200 628 (0, 0, 0)) (Resize (Decoded ex_png 400 400 RGB) 628 628)
          286 0) = (1200, 628).
Proof.
  apply (card_shape (Decoded ex_png 400 400 RGB) None
           (Paste (New 1200 628 (0, 0, 0)) (Resize (Decoded ex_png 400 400 RGB) 628 628)
              286 0) ltac:(vm_compute; reflexivity)).
Defined.

(** ** The image URL of the metadata document *)

(** X18. On a request with scheme [http] or [https] and a host that does
    not end in a slash, the image URL that [redirect_handler] hands to
    the metadata document for a non-empty stored reference is always
    absolute: the stored reference when that is absolute already, and
    otherwise a URL below the root of the site. *)
Theorem image_url_absolute req stored host a :
  truthy stored = true →
  req_scheme req = py "http" ∨ req_scheme req = py "https" →
  req_host req = host ++ [a] → a ≠ 47%N →
  let emitted := absolute_img_url req stored in
  startswith (py "http://") emitted || startswith (py "https://") emitted = true
  ∧ (emitted = or_else stored []
     ∨ startswith (req_scheme req ++ py "://" ++ req_host req ++ py "/") emitted
       = true).
Proof.
  intros Hstored Hscheme Hhost Hslash emitted. subst emitted.
  assert (∀ rest,
            startswith (py "http://") (req_scheme req ++ py "://" ++ rest)
            || startswith (py "https://") (req_scheme req ++ py "://" ++ rest) = true)
    as Habsolute.
  { intros rest. apply orb_true_iff.
    destruct Hscheme as [-> | ->]; [left | right];
      apply startswith_prefix; by exists rest. }
  unfold absolute_img_url.
  destruct stored as [[|c ref]|]; try done. simpl or_else. simpl truthy.
  destruct (startswith (py "http://") (c :: ref)
            || startswith (py "https://") (c :: ref)) eqn:Hgiven.
  { simpl. split; [done | by left]. }
  simpl negb. simpl andb.
  destruct (startswith (py "/") (c :: ref)) eqn:Hroot.
  - split; [apply Habsolute|]. right.
    apply startswith_prefix in Hroot as [rest Hroot]. rewrite Hroot.
    apply startswith_prefix. exists rest. by rewrite <- !app_assoc.
  - fold (site_root req). rewrite (site_root_host req host a Hhost Hslash).
    rewrite <- !app_assoc. split; [apply Habsolute|]. right.
    apply startswith_prefix. exists (lstrip 47 (c :: ref)). by rewrite <- !app_assoc.
Qed.

Lemma image_url_absolute_witness :
  startswith (py "http://") (absolute_img_url ex_bot_req (Some (py "uploads/a.png")))
  || startswith (py "https://") (absolute_img_url ex_bot_req (Some (py "uploads/a.png")))
  = true.
Proof.
  apply (image_url_absolute ex_bot_req (Some (py "uploads/a.png"))
           (py "short.exampl") 101%N ltac:(reflexivity)
           ltac:(right; reflexivity) ltac:(reflexivity) ltac:(discriminate)).
Defined.

(** ** The names of the stored files *)

(** X19. A file that [_save_uploaded_image_for_image_host] or
    [_save_uploaded_image] stores is named by the id, or the slug, that
    the handler drew, followed by one of the five allowed extensions in
    lower case; the URL handed back is the static URL of that name, and
    the file is in the upload directory afterwards. *)
Theorem saved_names_allowed secure_filename pil req file_storage offset_y :
  (∀ image_id st name direct_url view_url st',
     _save_uploaded_image_for_image_host secure_filename pil req file_storage
       image_id offset_y st = (Ok (name, direct_url, view_url), st') →
     ∃ ext, ext ∈ ALLOWED_IMAGE_EXTENSIONS
            ∧ name = image_id ++ ext
            ∧ direct_url = url_for_static req name
            ∧ is_Some (uploads st' !! name))
  ∧ (∀ slug uploads saved_url uploads',
       _save_uploaded_image secure_filename req file_storage slug uploads
       = (Ok saved_url, uploads') →
       ∃ ext, ext ∈ ALLOWED_IMAGE_EXTENSIONS
              ∧ saved_url = url_for_static req (slug ++ ext)
              ∧ uploads' !! (slug ++ ext) = Some (fs_data file_storage)).
Proof.
  assert (valid_upload secure_filename file_storage = true →
          py_lower (splitext (secure_filename
                      (or_else (fs_filename file_storage) []))).2
          ∈ ALLOWED_IMAGE_EXTENSIONS) as Hallowed.
  { unfold valid_upload, _is_allowed_image_filename.
    rewrite !andb_true_iff, bool_decide_eq_true. tauto. }
  split.
  - intros image_id st name direct_url view_url st' Hsave.
    destruct (valid_upload secure_filename file_storage) eqn:Hvalid.
    + destruct (save_uploaded_valid secure_filename pil req file_storage image_id
                  offset_y st Hvalid) as (Hres & _ & Huploads).
      rewrite Hsave in Hres, Huploads. simpl in Hres, Huploads.
      injection Hres as -> -> _.
      eexists. split; [by apply Hallowed|]. split; [done|]. split; [done|].
      rewrite Huploads, lookup_insert_eq. by eexists.
    + by rewrite save_uploaded_invalid in Hsave.
  - intros slug uploads saved_url uploads'.
    rewrite save_uploaded_image_spec.
    destruct (valid_upload secure_filename file_storage) eqn:Hvalid; [|done].
    simpl. intros [= <- <-].
    eexists. split; [by apply Hallowed|]. split; [done|]. apply lookup_insert_eq.
Qed.
